(** * FormAlchemy [forms.py]: attribute selection and field rendering

    A shallow embedding of [formalchemy/forms.py] (classes [FieldSet] and
    [Field]) and the properties of its attribute selection
    ([FieldSet.get_attrs]), binding ([FieldSet.bind]) and rendering
    ([Field.render], [FieldSet.render]).

    Python objects that are mutated in place (the [AttributeWrapper]s owned by
    a [FieldSet]) live in a heap indexed by object identity; lists handed
    around by the program hold references into that heap.  Exceptions are
    values of an error monad.  The modules [fields], [utils] and [webhelpers]
    that [forms.py] imports are interfaces (type classes) here. *)

From Stdlib Require Import Ascii.
From stdpp Require Import gmap strings list sorting.

(** ** Strings *)

(** The Python literal ["\n"]. *)
Definition nl : string := String "010"%char EmptyString.

(** The double-quote character of the focus script. *)
Definition dquote : string := String "034"%char EmptyString.

(** [s.startswith("\n")] *)
Definition startswith_nl (s : string) : bool :=
  match s with
  | String c _ => bool_decide (c = "010"%char)
  | EmptyString => false
  end.

(** [s[1:]] *)
Definition drop_first (s : string) : string :=
  match s with
  | String _ s' => s'
  | EmptyString => EmptyString
  end.

(** ["\n".join(parts)] *)
Fixpoint join_nl (parts : list string) : string :=
  match parts with
  | [] => EmptyString
  | [s] => s
  | s :: rest => s +:+ nl +:+ join_nl rest
  end.

(** ** Exceptions and the error monad *)

Inductive exn :=
  | Exception (msg : string)
  | ValueError (msg : string)
  | AttributeError (msg : string).

Inductive result (A : Type) :=
  | Ok (a : A)
  | Raise (e : exn).
Arguments Ok {A} a.
Arguments Raise {A} e.

#[global] Instance result_ret : MRet result := λ A a, Ok a.
#[global] Instance result_bind : MBind result := λ A B f m,
  match m with
  | Ok a => f a
  | Raise e => Raise e
  end.
#[global] Instance result_fmap : FMap result := λ A B f m,
  match m with
  | Ok a => Ok (f a)
  | Raise e => Raise e
  end.

(** ** Python values and objects *)

(** Object identities. *)
Definition ref := nat.
Definition model_ref := nat.
Definition session_ref := nat.

(** A mapped column; [col_id] is the identity of the column object, which is
    what dictionaries keyed by columns and [focus == column] compare. *)
Record Column := {
  col_id : nat;
  primary_key : bool;
  col_nullable : bool
}.

(** The widget classes of [fields]; [render_as] holds one of them or [None]. *)
Inductive field_class :=
  | HiddenField
  | TextField
  | PasswordField
  | BooleanField
  | DateField
  | OtherField (cls : string).

#[global] Instance field_class_eq_dec : EqDecision field_class.
Proof. solve_decision. Defined.

(** The state of one [fields.AttributeWrapper] object: what
    [AttributeWrapper((attr, model, session))] stores and what [forms.py]
    reads off a wrapper. *)
Record AttributeWrapper := {
  name : string;                      (* wrapper.name *)
  column : Column;                    (* wrapper.column *)
  nullable : bool;                    (* wrapper.nullable *)
  raw_foreign_key : bool;             (* wrapper.is_raw_foreign_key() *)
  render_as : option field_class;     (* wrapper.render_as *)
  render_opts : string;               (* renderer configuration of the wrapper *)
  model : model_ref;                  (* wrapper.model *)
  session : option session_ref        (* wrapper.session *)
}.

#[global] Instance AttributeWrapper_inhabited : Inhabited AttributeWrapper :=
  populate {| name := EmptyString;
              column := {| col_id := 0; primary_key := false; col_nullable := true |};
              nullable := true; raw_foreign_key := false; render_as := None;
              render_opts := EmptyString; model := 0; session := None |}.

(** [attr.model = model] *)
Definition set_model (m : model_ref) (w : AttributeWrapper) : AttributeWrapper :=
  {| name := name w; column := column w; nullable := nullable w;
     raw_foreign_key := raw_foreign_key w; render_as := render_as w;
     render_opts := render_opts w; model := m; session := session w |}.

(** The heap of wrapper objects. *)
Abbreviation heap := (gmap ref AttributeWrapper).

(** A value found in a user-supplied list or in an instance dictionary:
    an [AttributeWrapper] instance, or anything else. *)
Inductive pyval :=
  | PyWrapper (r : ref)
  | PyOther (repr : string).

(** [isinstance(v, fields.AttributeWrapper)] *)
Definition is_wrapper (v : pyval) : bool :=
  match v with
  | PyWrapper _ => true
  | PyOther _ => false
  end.

(** The wrappers of a list of values, in order; on a list that passed
    [validate_columns] these are all its elements. *)
Definition wrappers_of (l : list pyval) : list ref :=
  omap (λ v, match v with PyWrapper r => Some r | PyOther _ => None end) l.

(** The value of the [focus] option: a boolean, a column, or [None]. *)
Inductive focus_value :=
  | FocusBool (b : bool)
  | FocusColumn (c : Column)
  | FocusNone.

(** Keyword options ([**kwargs], [**options], and the configuration layers):
    a key is either absent or bound. *)
Record kwargs := {
  kw_pk : option bool;
  kw_exclude : option (list pyval);
  kw_include : option (list pyval);
  kw_options : option (list pyval);
  kw_make_label : option bool;
  kw_prettify : option (string → string);
  kw_alias : option (gmap string string);
  kw_focus : option focus_value;
  kw_error : option (gmap nat string);
  kw_doc : option (gmap nat string);
  kw_cls_req : option string;
  kw_cls_opt : option string;
  kw_cls_err : option string;
  kw_span_doc : option string;
  kw_span_err : option string;
  kw_date : option string;
  kw_time : option string;
  kw_datetime : option string
}.

(** The empty keyword dictionary. *)
Definition no_kwargs : kwargs :=
  {| kw_pk := None; kw_exclude := None; kw_include := None; kw_options := None;
     kw_make_label := None; kw_prettify := None; kw_alias := None;
     kw_focus := None; kw_error := None; kw_doc := None; kw_cls_req := None;
     kw_cls_opt := None; kw_cls_err := None; kw_span_doc := None;
     kw_span_err := None; kw_date := None; kw_time := None;
     kw_datetime := None |}.

(** ** The imported modules *)

(** [formalchemy.fields]: the methods of [AttributeWrapper] and [Label] that
    [forms.py] calls. *)
Class Fields := {
  (** [AttributeWrapper.__eq__] on two distinct objects *)
  wrapper_eq : AttributeWrapper → AttributeWrapper → bool;
  (** [AttributeWrapper.__hash__] *)
  wrapper_hash : AttributeWrapper → Z;
  (** [wrapper.render()], the input fragment *)
  wrapper_render : AttributeWrapper → string;
  (** [Label(column, alias=a)] with [set_prettify(p)] and [cls = c], rendered *)
  Label_render : Column → string → option (string → string) → string → string
}.

(** [webhelpers], imported as [h]. *)
Class WebHelpers := {
  (** [h.content_tag(tag, content, class_=cls)] *)
  content_tag : string → string → string → string;
  (** [h.javascript_tag(body)] *)
  javascript_tag : string → string
}.

(** [formalchemy.utils] and the string conversion of the error message. *)
Class Utils := {
  (** [utils.wrap(start, text, end)] *)
  wrap : string → string → string → string;
  (** [str(lst)] of a list of values, as interpolated by [%s] *)
  py_str : list pyval → string
}.

(** The mapped classes: the options a model class declares in its
    [FormAlchemy] block, read by the base renderers. *)
Class Models := {
  model_defaults : model_ref → kwargs
}.

(** Modelled from the spec: [utils.validate_columns], which is not part of the
    sources.  "Each of include/exclude/options-override lists must contain
    only AttributeWrapper instances; otherwise fail": the call raises iff some
    element is not a wrapper; [true] stands for a normal return. *)
Definition validate_columns (iterable : list pyval) : bool :=
  forallb is_wrapper iterable.

(** Modelled from the spec: the key-wise merge behind [new_options] of the
    base classes, which are not part of the sources.  "Merge is key-wise (each
    named option resolved independently)"; the first layer wins. *)
Definition merge_kwargs (hi lo : kwargs) : kwargs :=
  {| kw_pk := kw_pk hi ∪ kw_pk lo;
     kw_exclude := kw_exclude hi ∪ kw_exclude lo;
     kw_include := kw_include hi ∪ kw_include lo;
     kw_options := kw_options hi ∪ kw_options lo;
     kw_make_label := kw_make_label hi ∪ kw_make_label lo;
     kw_prettify := kw_prettify hi ∪ kw_prettify lo;
     kw_alias := kw_alias hi ∪ kw_alias lo;
     kw_focus := kw_focus hi ∪ kw_focus lo;
     kw_error := kw_error hi ∪ kw_error lo;
     kw_doc := kw_doc hi ∪ kw_doc lo;
     kw_cls_req := kw_cls_req hi ∪ kw_cls_req lo;
     kw_cls_opt := kw_cls_opt hi ∪ kw_cls_opt lo;
     kw_cls_err := kw_cls_err hi ∪ kw_cls_err lo;
     kw_span_doc := kw_span_doc hi ∪ kw_span_doc lo;
     kw_span_err := kw_span_err hi ∪ kw_span_err lo;
     kw_date := kw_date hi ∪ kw_date lo;
     kw_time := kw_time hi ∪ kw_time lo;
     kw_datetime := kw_datetime hi ∪ kw_datetime lo |}.

(** Truth value of a list: [if lst]. *)
Definition truthy {A} (lst : list A) : bool :=
  match lst with
  | [] => false
  | _ :: _ => true
  end.

(** ** Python equality and containers of wrappers *)

Section containers.
Context `{!Fields}.

(** [a == b] as the containers evaluate it: identity first, then
    [a.__eq__(b)]. *)
Definition py_eq (h : heap) (a b : ref) : bool :=
  bool_decide (a = b) || wrapper_eq (h !!! a) (h !!! b).

(** [x in lst] for a list. *)
Definition py_in (h : heap) (x : ref) (lst : list ref) : bool :=
  existsb (py_eq h x) lst.

(** A dictionary keyed by wrappers, as its entries in insertion order.  A
    stored key [k] answers a lookup of [x] when they are the same object, or
    have the same hash and [k == x]. *)
Definition key_match (h : heap) (k x : ref) : bool :=
  bool_decide (k = x)
  || (bool_decide (wrapper_hash (h !!! k) = wrapper_hash (h !!! x))
      && wrapper_eq (h !!! k) (h !!! x)).

(** [d[k] = v]: an entry whose key matches keeps its key and takes the new
    value; otherwise a new entry is added. *)
Fixpoint dict_setitem (h : heap) (d : list (ref * ref)) (k v : ref)
  : list (ref * ref) :=
  match d with
  | [] => [(k, v)]
  | (k', v') :: d' =>
      if key_match h k' k then (k', v) :: d'
      else (k', v') :: dict_setitem h d' k v
  end.

(** [d.update(items)] *)
Definition dict_update (h : heap) (d : list (ref * ref))
    (items : list (ref * ref)) : list (ref * ref) :=
  fold_left (λ d kv, dict_setitem h d kv.1 kv.2) items d.

(** [d.get(x)]: the value of the entry whose key matches [x], if any. *)
Fixpoint dict_get (h : heap) (d : list (ref * ref)) (x : ref) : option ref :=
  match d with
  | [] => None
  | (k, v) :: d' => if key_match h k x then Some v else dict_get h d' x
  end.

End containers.

(** ** Sorting by name *)

(** [wrappers.sort(key=lambda wrapper: wrapper.name)].  Python's sort is
    stable and orders [str] keys bytewise; a stable sort has one possible
    result, computed here by insertion. *)
Fixpoint insert_by_name (h : heap) (x : ref) (l : list ref) : list ref :=
  match l with
  | [] => [x]
  | y :: l' =>
      if String.leb (name (h !!! x)) (name (h !!! y)) then x :: y :: l'
      else y :: insert_by_name h x l'
  end.

Definition sort_by_name (h : heap) (l : list ref) : list ref :=
  foldr (insert_by_name h) [] l.

(** ** class Field *)

Module Field.

(** The state of a [Field] object. *)
Record t := {
  f_model : model_ref;
  f_session : option session_ref;
  f_wrapper : option ref;             (* self.wrapper, set by set_attr *)
  f_config : kwargs;                  (* persistent options *)
  f_defaults : kwargs;                (* model-declared defaults *)
  _make_label : bool;
  _focus_rendered : bool
}.

(** Modelled from the spec: [BaseColumnRender.__init__], [set_attr],
    [reconfigure] and [new_options] of the base class, which is not part of
    the sources.  The constructor records model, session and attribute, and
    reads the model-declared defaults; [set_attr] selects the wrapper to
    render; [reconfigure] replaces the persistent options; [new_options]
    resolves call-time options over persistent options over the
    model-declared defaults. *)
Definition base_init `{!Models} (model : model_ref)
    (session : option session_ref) (attr : option ref) : t :=
  {| f_model := model; f_session := session; f_wrapper := attr;
     f_config := no_kwargs; f_defaults := model_defaults model;
     _make_label := true; _focus_rendered := false |}.

Definition set_attr (self : t) (attr : ref) : t :=
  {| f_model := f_model self; f_session := f_session self;
     f_wrapper := Some attr; f_config := f_config self;
     f_defaults := f_defaults self; _make_label := _make_label self;
     _focus_rendered := _focus_rendered self |}.

Definition reconfigure (self : t) (opts : kwargs) : t :=
  {| f_model := f_model self; f_session := f_session self;
     f_wrapper := f_wrapper self; f_config := opts;
     f_defaults := f_defaults self; _make_label := _make_label self;
     _focus_rendered := _focus_rendered self |}.

Definition new_options (self : t) (options : kwargs) : kwargs :=
  merge_kwargs options (merge_kwargs (f_config self) (f_defaults self)).

(** [self._make_label = bool(value)] *)
Definition set_make_label (self : t) (value : bool) : t :=
  {| f_model := f_model self; f_session := f_session self;
     f_wrapper := f_wrapper self; f_config := f_config self;
     f_defaults := f_defaults self; _make_label := value;
     _focus_rendered := _focus_rendered self |}.

Definition get_make_label (self : t) : bool := _make_label self.

(** [self._focus_rendered = value] *)
Definition set_focus_rendered (self : t) (value : bool) : t :=
  {| f_model := f_model self; f_session := f_session self;
     f_wrapper := f_wrapper self; f_config := f_config self;
     f_defaults := f_defaults self; _make_label := _make_label self;
     _focus_rendered := value |}.

(** [Field.__init__(self, model, session=None, attr=None, make_label=True)] *)
Definition init `{!Models} (model : model_ref)
    (session : option session_ref) (attr : option ref) (make_label : bool) : t :=
  let self := base_init model session attr in
  let self := set_make_label self make_label in
  set_focus_rendered self false.

(** [focus == column] *)
Definition focus_eq_column (focus : focus_value) (c : Column) : bool :=
  match focus with
  | FocusColumn c' => bool_decide (col_id c' = col_id c)
  | _ => false
  end.

(** [focus is True] *)
Definition focus_is_True (focus : focus_value) : bool :=
  match focus with
  | FocusBool true => true
  | _ => false
  end.

Section render.
Context `{!Fields, !WebHelpers, !Utils}.

(** The script body ['document.getElementById("%s").focus();' % name]. *)
Definition focus_script (name : string) : string :=
  "document.getElementById(" +:+ dquote +:+ name +:+ dquote +:+ ").focus();".

(** [Field.render(self, **options)]: the markup of the current wrapper and
    the renderer afterwards. *)
Definition render (h : heap) (self : t) (options : kwargs) : result (string * t) :=
  (* Merge class level options with given options. *)
  let opts := new_options self options in
  (* DateTime, Date, Time string formaters *)
  let date_f := default "%Y-%m-%d" (kw_date opts) in
  let time_f := default "%H:%M:%S" (kw_time opts) in
  let datetime_f := default (date_f +:+ " " +:+ time_f) (kw_datetime opts) in
  let make_label := default (get_make_label self) (kw_make_label opts) in
  let pretty_func := kw_prettify opts in
  let alias := default ∅ (kw_alias opts) in
  let focus := default (FocusBool true) (kw_focus opts) in
  let errors := default ∅ (kw_error opts) in
  let docs := default ∅ (kw_doc opts) in
  (* Setup HTML classes *)
  let cls_fld_req := default "field_req" (kw_cls_req opts) in
  let cls_fld_opt := default "field_opt" (kw_cls_opt opts) in
  let cls_fld_err := default "field_err" (kw_cls_err opts) in
  let cls_span_doc := default "span_doc" (kw_span_doc opts) in
  let cls_span_err := default "span_err" (kw_span_err opts) in
  wrapper ← match f_wrapper self with
            | Some r => Ok (h !!! r)
            | None => Raise (AttributeError "render_as")
            end;
  (* Process hidden fields first as they don't need a `Label`. *)
  if bool_decide (render_as wrapper = Some HiddenField) then
    Ok (wrapper_render wrapper, self)
  else
    (* Make the label *)
    let field := EmptyString in
    let field :=
      if make_label then
        let cls := if nullable wrapper then cls_fld_opt else cls_fld_req in
        field +:+ Label_render (column wrapper)
                    (default (name wrapper) (alias !! name wrapper))
                    pretty_func cls
      else field in
    (* Make the input *)
    let field := field +:+ nl +:+ wrapper_render wrapper in
    (* Make the error *)
    let field :=
      if bool_decide (is_Some (errors !! col_id (column wrapper))) then
        field +:+ nl +:+ content_tag "span" (errors !!! col_id (column wrapper))
                           cls_span_err
      else field in
    (* Make the documentation *)
    let field :=
      if bool_decide (is_Some (docs !! col_id (column wrapper))) then
        field +:+ nl +:+ content_tag "span" (docs !!! col_id (column wrapper))
                           cls_span_doc
      else field in
    let field := if startswith_nl field then drop_first field else field in
    (* Wrap the whole thing into a div *)
    let field :=
      if get_make_label self then wrap "<div>" field "</div>" else field in
    (* Do the field focusing *)
    if (focus_eq_column focus (column wrapper) || focus_is_True focus)
       && negb (_focus_rendered self)
    then
      Ok (field +:+ nl +:+ javascript_tag (focus_script (name wrapper)),
          set_focus_rendered self true)
    else Ok (field, self).

End render.
End Field.

(** ** class FieldSet *)

Module FieldSet.

(** The state of a [FieldSet] object.  [fs_dict] is the part of the instance
    dictionary that [__init__] fills, one entry per scalar attribute, plus
    whatever else was stored on the instance. *)
Record t := {
  fs_model : model_ref;
  fs_session : option session_ref;
  fs_config : kwargs;                 (* persistent options *)
  fs_defaults : kwargs;               (* model-declared defaults *)
  fs_dict : gmap string pyval
}.

(** Modelled from the spec: [BaseModelRender.bind] and [new_options] of the
    base class, which is not part of the sources.  [bind] records the model
    and the session on the form; [new_options] resolves call-time options
    over persistent options over the model-declared defaults. *)
Definition base_bind (self : t) (model : model_ref)
    (session : option session_ref) : t :=
  {| fs_model := model; fs_session := session; fs_config := fs_config self;
     fs_defaults := fs_defaults self; fs_dict := fs_dict self |}.

Definition new_options (self : t) (options : kwargs) : kwargs :=
  merge_kwargs options (merge_kwargs (fs_config self) (fs_defaults self)).

(** [FieldSet._raw_attrs(self)] *)
Definition _raw_attrs (h : heap) (self : t) : list ref :=
  let wrappers := wrappers_of (map_to_list (fs_dict self)).*2 in
  (* sort by name for reproducibility *)
  sort_by_name h wrappers.

(** [FieldSet.bind(self, model, session=None)]: the heap and the form
    afterwards. *)
Definition bind (h : heap) (self : t) (model : model_ref)
    (session : option session_ref) : heap * t :=
  let self := base_bind self model session in
  let h := fold_left (λ h attr, alter (set_model model) attr h)
             (_raw_attrs h self) h in
  (h, self).

Section get_attrs.
Context `{!Fields, !Utils}.

(** The loop over ['include', 'exclude', 'options'] with its [try]/[except]. *)
Fixpoint validate_params (params : list (string * list pyval)) : result unit :=
  match params with
  | [] => Ok ()
  | (lst, value) :: rest =>
      if validate_columns value then validate_params rest
      else Raise (ValueError
             (lst +:+ " parameter should be an iterable of AttributeWrapper objects; was "
                  +:+ py_str value))
  end.

(** The body of [get_attrs]; [get_pks] is the call [self.get_pks()]. *)
Definition get_attrs_body (get_pks : result (list ref)) (h : heap) (self : t)
    (kwargs : kwargs) : result (list ref) :=
  let pk := default true (kw_pk kwargs) in
  let exclude := default [] (kw_exclude kwargs) in
  let include := default [] (kw_include kwargs) in
  let options := default [] (kw_options kwargs) in
  if truthy include && truthy exclude then
    Raise (Exception "Specify at most one of include, exclude")
  else
    _ ← validate_params
          [("include", include); ("exclude", exclude); ("options", options)];
    include ←
      (if negb (truthy include) then
         let ignore := wrappers_of exclude in
         ignore ← (if negb pk then pks ← get_pks; Ok (ignore ++ pks)
                   else Ok ignore);
         let ignore :=
           ignore ++ filter (λ wrapper, raw_foreign_key (h !!! wrapper))
                       (_raw_attrs h self) in
         Ok (filter (λ attr, negb (py_in h attr ignore)) (_raw_attrs h self))
       else Ok (wrappers_of include));
    (* this feels overcomplicated *)
    let options_dict :=
      dict_update h [] ((λ wrapper, (wrapper, wrapper)) <$> wrappers_of options) in
    Ok (fold_left
          (λ L wrapper,
             match dict_get h options_dict wrapper with
             | Some override => L ++ [override]
             | None => L ++ [wrapper]
             end)
          include []).

(** [FieldSet.get_pks(self)].  It calls [self.get_attrs()] without keyword
    arguments, so with [pk=True]: that call never reaches [get_pks] again. *)
Definition get_pks (h : heap) (self : t) : result (list ref) :=
  attrs ← get_attrs_body (Ok []) h self no_kwargs;
  Ok (filter (λ wrapper, primary_key (column (h !!! wrapper))) attrs).

(** [FieldSet.get_attrs(self, **kwargs)] *)
Definition get_attrs (h : heap) (self : t) (kwargs : kwargs)
    : result (list ref) :=
  get_attrs_body (get_pks h self) h self kwargs.

(** [FieldSet.get_required(self)] *)
Definition get_required (h : heap) (self : t) : result (list ref) :=
  attrs ← get_attrs h self no_kwargs;
  Ok (filter (λ wrapper, negb (col_nullable (column (h !!! wrapper)))) attrs).

End get_attrs.

Section render.
Context `{!Fields, !WebHelpers, !Utils, !Models}.

(** The loop [for attr in attrs] of [render]: the fragments collected in
    [html] and the renderer afterwards. *)
Fixpoint render_fields (h : heap) (field_render : Field.t) (attrs : list ref)
    (html : list string) : result (list string * Field.t) :=
  match attrs with
  | [] => Ok (html, field_render)
  | attr :: attrs' =>
      let field_render := Field.set_attr field_render attr in
      r ← Field.render h field_render no_kwargs;
      render_fields h r.2 attrs' (html ++ [r.1])
  end.

(** [FieldSet.render(self, **options)] *)
Definition render (h : heap) (self : t) (options : kwargs) : result string :=
  (* Merge class level options with given options. *)
  let opts := new_options self options in
  (* Filter out unnecessary columns. *)
  attrs ← get_attrs h self opts;
  (* Generate fields. *)
  let field_render := Field.init (fs_model self) (fs_session self) None true in
  let field_render := Field.reconfigure field_render opts in
  r ← render_fields h field_render attrs [];
  Ok (join_nl r.1).

End render.
End FieldSet.

(** ** The protocol of a form object *)




(** ** What the selection is specified to be *)

(** The selection for an empty include list, in the words of the
    specification: all wrappers sorted by name, minus the exclude list, minus
    primary keys when they are not visible, minus raw foreign keys. *)
Definition spec_select `{!Fields} (h : heap) (all_sorted : list ref)
    (pk : bool) (exclude : list ref) : list ref :=
  filter (λ w, negb (py_in h w exclude)
               && (pk || negb (primary_key (column (h !!! w))))
               && negb (raw_foreign_key (h !!! w)))
    all_sorted.

(** Substitution of the per-attribute overrides: a selected wrapper that
    matches an entry of the options list is replaced by the entry last given
    for it. *)
Definition spec_override `{!Fields} (h : heap) (options : list ref)
    (w : ref) : ref :=
  default w (dict_get h (dict_update h [] ((λ o, (o, o)) <$> options)) w).

(** The order of the sort keys. *)
Definition name_le (h : heap) (a b : ref) : Prop :=
  String.le (name (h !!! a)) (name (h !!! b)).

(** No entry of the options list stands for a different selected wrapper:
    whenever an entry and a selected wrapper compare equal they are the same
    object.  This always holds when wrappers are compared by identity. *)
Definition overrides_inert `{!Fields} (h : heap) (options selected : list ref)
    : bool :=
  forallb (λ w,
    forallb (λ o, implb (py_eq h o w || py_eq h w o) (bool_decide (o = w)))
      options) selected.

(** Distinct wrappers of a form never compare equal. *)
Definition owned_distinct `{!Fields} (h : heap) (self : FieldSet.t) : bool :=
  let all := FieldSet._raw_attrs h self in
  forallb (λ a,
    forallb (λ b, implb (py_eq h a b) (bool_decide (a = b))) all) all.

(** The selection criterion of the focus script for one field. *)
Definition focus_matches (focus : focus_value) (w : AttributeWrapper) : bool :=
  Field.focus_eq_column focus (column w) || Field.focus_is_True focus.

(** A field that can carry markup around its input: any but a hidden one. *)
Definition visible (w : AttributeWrapper) : bool :=
  negb (bool_decide (render_as w = Some HiddenField)).

(** The parameters in the order of validation. *)
Definition validated_params (kw : kwargs) : list (string * list pyval) :=
  [("include", default [] (kw_include kw));
   ("exclude", default [] (kw_exclude kw));
   ("options", default [] (kw_options kw))].

(** ** The parts of a rendered field *)

(** The label of a field, or nothing when labels are off. *)
Definition label_part `{!Fields} (opts : kwargs) (make_label : bool)
    (w : AttributeWrapper) : string :=
  if make_label then
    Label_render (column w)
      (default (name w) (default ∅ (kw_alias opts) !! name w))
      (kw_prettify opts)
      (if nullable w then default "field_opt" (kw_cls_opt opts)
       else default "field_req" (kw_cls_req opts))
  else EmptyString.

(** The span for the text that a map holds under the column of the field:
    a line break and the span when the column is a key of the map, nothing
    otherwise. *)
Definition span_part `{!WebHelpers} (texts : gmap nat string) (cls : string)
    (w : AttributeWrapper) : string :=
  match texts !! col_id (column w) with
  | Some text => nl +:+ content_tag "span" text cls
  | None => EmptyString
  end.

(** A leading line break removed. *)
Definition strip_nl (s : string) : string :=
  if startswith_nl s then drop_first s else s.

Section markup.
Context `{!Fields, !WebHelpers, !Utils}.

(** Label, input, error span and documentation span of a field, in this
    order, without a leading line break. *)
Definition field_body (opts : kwargs) (make_label : bool)
    (w : AttributeWrapper) : string :=
  strip_nl (label_part opts make_label w +:+ nl) +:+ wrapper_render w
    +:+ span_part (default ∅ (kw_error opts))
          (default "span_err" (kw_span_err opts)) w
    +:+ span_part (default ∅ (kw_doc opts))
          (default "span_doc" (kw_span_doc opts)) w.

(** The markup of a field apart from the focus script, for a renderer whose
    own label flag is [instance_make_label]: the input alone for a hidden
    field; otherwise the body, with the label decided by the [make_label]
    option (the flag of the renderer when the option is absent) and the
    wrapping container decided by the flag of the renderer. *)
Definition field_markup (opts : kwargs) (instance_make_label : bool)
    (w : AttributeWrapper) : string :=
  if visible w then
    let body :=
      field_body opts (default instance_make_label (kw_make_label opts)) w in
    if instance_make_label then wrap "<div>" body "</div>" else body
  else wrapper_render w.

(** The focus script as appended to a field. *)
Definition focus_tag (w : AttributeWrapper) : string :=
  nl +:+ javascript_tag (Field.focus_script (name w)).

(** A field that takes the focus script if none was emitted before it. *)
Definition can_focus (opts : kwargs) (w : AttributeWrapper) : bool :=
  visible w && focus_matches (default (FocusBool true) (kw_focus opts)) w.

(** The position of the first selected field that can take the focus
    script. *)
Definition focus_position (opts : kwargs) (h : heap) (attrs : list ref)
    : option nat :=
  fst <$> list_find (λ attr, can_focus opts (h !!! attr)) attrs.

(** The fragments of a render pass in which the field at position [at_]
    (if any) carries the focus script. *)
Definition fragments (opts : kwargs) (instance_make_label : bool) (h : heap)
    (at_ : option nat) (attrs : list ref) : list string :=
  imap (λ i attr,
          let w := h !!! attr in
          if bool_decide (at_ = Some i)
          then field_markup opts instance_make_label w +:+ focus_tag w
          else field_markup opts instance_make_label w)
    attrs.

End markup.

(** ** Further notions for the selection and the options *)

(** The selection of [get_attrs] before the per-attribute overrides: the
    include list when it is non-empty, otherwise the wrappers of the form
    that are not in the ignore list. *)
Definition selected `{!Fields} (h : heap) (self : FieldSet.t) (kw : kwargs)
    : list ref :=
  let all := FieldSet._raw_attrs h self in
  let fks := filter (λ wrapper, raw_foreign_key (h !!! wrapper)) all in
  let pks :=
    filter (λ wrapper, primary_key (column (h !!! wrapper)))
      (filter (λ attr, negb (py_in h attr fks)) all) in
  if truthy (default [] (kw_include kw)) then
    wrappers_of (default [] (kw_include kw))
  else
    filter (λ attr,
              negb (py_in h attr
                      (wrappers_of (default [] (kw_exclude kw))
                       ++ (if default true (kw_pk kw) then [] else pks)
                       ++ fks)))
      all.

(** The keyword arguments without the [options] key. *)
Definition without_options (kw : kwargs) : kwargs :=
  {| kw_pk := kw_pk kw; kw_exclude := kw_exclude kw;
     kw_include := kw_include kw; kw_options := None;
     kw_make_label := kw_make_label kw; kw_prettify := kw_prettify kw;
     kw_alias := kw_alias kw; kw_focus := kw_focus kw;
     kw_error := kw_error kw; kw_doc := kw_doc kw;
     kw_cls_req := kw_cls_req kw; kw_cls_opt := kw_cls_opt kw;
     kw_cls_err := kw_cls_err kw; kw_span_doc := kw_span_doc kw;
     kw_span_err := kw_span_err kw; kw_date := kw_date kw;
     kw_time := kw_time kw; kw_datetime := kw_datetime kw |}.

(** The keyword arguments with the [pk] key bound. *)
Definition set_pk (pk : bool) (kw : kwargs) : kwargs :=
  {| kw_pk := Some pk; kw_exclude := kw_exclude kw;
     kw_include := kw_include kw; kw_options := kw_options kw;
     kw_make_label := kw_make_label kw; kw_prettify := kw_prettify kw;
     kw_alias := kw_alias kw; kw_focus := kw_focus kw;
     kw_error := kw_error kw; kw_doc := kw_doc kw;
     kw_cls_req := kw_cls_req kw; kw_cls_opt := kw_cls_opt kw;
     kw_cls_err := kw_cls_err kw; kw_span_doc := kw_span_doc kw;
     kw_span_err := kw_span_err kw; kw_date := kw_date kw;
     kw_time := kw_time kw; kw_datetime := kw_datetime kw |}.

(** Two option sets that agree on every key except the date, time and
    datetime formats and the [cls_err] class. *)
Definition same_but_formats (o o' : kwargs) : Prop :=
  kw_pk o = kw_pk o' ∧ kw_exclude o = kw_exclude o'
  ∧ kw_include o = kw_include o' ∧ kw_options o = kw_options o'
  ∧ kw_make_label o = kw_make_label o' ∧ kw_prettify o = kw_prettify o'
  ∧ kw_alias o = kw_alias o' ∧ kw_focus o = kw_focus o'
  ∧ kw_error o = kw_error o' ∧ kw_doc o = kw_doc o'
  ∧ kw_cls_req o = kw_cls_req o' ∧ kw_cls_opt o = kw_cls_opt o'
  ∧ kw_span_doc o = kw_span_doc o' ∧ kw_span_err o = kw_span_err o'.

(** ** A sample form *)

Module Sample.

(** Wrappers are equal when they wrap the same column, which lets a copy of a
    wrapper with another widget stand for the original. *)
Definition fields_by_column : Fields :=
  {| wrapper_eq a b := bool_decide (col_id (column a) = col_id (column b));
     wrapper_hash a := Z.of_nat (col_id (column a));
     wrapper_render a := "<input name=" +:+ name a +:+ ">";
     Label_render c alias prettify cls :=
       "<label class=" +:+ cls +:+ ">"
         +:+ default (λ s, s) prettify alias +:+ "</label>" |}.


Definition helpers : WebHelpers :=
  {| content_tag tag content cls :=
       "<" +:+ tag +:+ " class=" +:+ cls +:+ ">" +:+ content
           +:+ "</" +:+ tag +:+ ">";
     javascript_tag body := "<script>" +:+ body +:+ "</script>" |}.

Definition show (v : pyval) : string :=
  match v with
  | PyWrapper r => "<AttributeWrapper>"
  | PyOther repr => repr
  end.

Definition utils : Utils :=
  {| wrap start text stop := start +:+ nl +:+ text +:+ nl +:+ stop;
     py_str l := "[" +:+ foldr (λ v s, show v +:+ "," +:+ s) "]" l |}.

Definition models : Models := {| model_defaults m := no_kwargs |}.

Definition mk (n : string) (c : nat) (pkey null fk : bool)
    (kind : option field_class) : AttributeWrapper :=
  {| name := n;
     column := {| col_id := c; primary_key := pkey; col_nullable := null |};
     nullable := null; raw_foreign_key := fk; render_as := kind;
     render_opts := EmptyString; model := 7; session := Some 1 |}.

(** The model of the specification's example: [id] (primary key), [name]
    (not null), [bio] (nullable), [secret_id] (raw foreign key).  Object 5 is
    a copy of [name] rendered as a password field, object 6 a hidden copy of
    [bio]; neither belongs to the form. *)
Definition id_ : ref := 1.
Definition name_ : ref := 2.
Definition bio_ : ref := 3.
Definition secret_id_ : ref := 4.
Definition name_password : ref := 5.
Definition bio_hidden : ref := 6.

Definition objects : heap :=
  list_to_map
    [ (id_, mk "id" 10 true false false (Some TextField));
      (name_, mk "name" 11 false false false (Some TextField));
      (bio_, mk "bio" 12 false true false (Some TextField));
      (secret_id_, mk "secret_id" 13 false false true (Some TextField));
      (name_password, mk "name" 11 false false false (Some PasswordField));
      (bio_hidden, mk "bio" 12 false true false (Some HiddenField)) ].

Definition form : FieldSet.t :=
  {| FieldSet.fs_model := 7; FieldSet.fs_session := Some 1;
     FieldSet.fs_config := no_kwargs; FieldSet.fs_defaults := no_kwargs;
     FieldSet.fs_dict :=
       list_to_map
         [ ("id", PyWrapper id_); ("name", PyWrapper name_);
           ("bio", PyWrapper bio_); ("secret_id", PyWrapper secret_id_) ] |}.

Definition with_include (l : list pyval) (kw : kwargs) : kwargs :=
  merge_kwargs
    {| kw_pk := None; kw_exclude := None; kw_include := Some l;
       kw_options := None; kw_make_label := None; kw_prettify := None;
       kw_alias := None; kw_focus := None; kw_error := None; kw_doc := None;
       kw_cls_req := None; kw_cls_opt := None; kw_cls_err := None;
       kw_span_doc := None; kw_span_err := None; kw_date := None;
       kw_time := None; kw_datetime := None |} kw.

Definition with_exclude (l : list pyval) (kw : kwargs) : kwargs :=
  merge_kwargs
    {| kw_pk := None; kw_exclude := Some l; kw_include := None;
       kw_options := None; kw_make_label := None; kw_prettify := None;
       kw_alias := None; kw_focus := None; kw_error := None; kw_doc := None;
       kw_cls_req := None; kw_cls_opt := None; kw_cls_err := None;
       kw_span_doc := None; kw_span_err := None; kw_date := None;
       kw_time := None; kw_datetime := None |} kw.

Definition with_options (l : list pyval) (kw : kwargs) : kwargs :=
  merge_kwargs
    {| kw_pk := None; kw_exclude := None; kw_include := None;
       kw_options := Some l; kw_make_label := None; kw_prettify := None;
       kw_alias := None; kw_focus := None; kw_error := None; kw_doc := None;
       kw_cls_req := None; kw_cls_opt := None; kw_cls_err := None;
       kw_span_doc := None; kw_span_err := None; kw_date := None;
       kw_time := None; kw_datetime := None |} kw.

Definition with_pk (b : bool) (kw : kwargs) : kwargs :=
  merge_kwargs
    {| kw_pk := Some b; kw_exclude := None; kw_include := None;
       kw_options := None; kw_make_label := None; kw_prettify := None;
       kw_alias := None; kw_focus := None; kw_error := None; kw_doc := None;
       kw_cls_req := None; kw_cls_opt := None; kw_cls_err := None;
       kw_span_doc := None; kw_span_err := None; kw_date := None;
       kw_time := None; kw_datetime := None |} kw.

Definition with_make_label (b : bool) (kw : kwargs) : kwargs :=
  merge_kwargs
    {| kw_pk := None; kw_exclude := None; kw_include := None;
       kw_options := None; kw_make_label := Some b; kw_prettify := None;
       kw_alias := None; kw_focus := None; kw_error := None; kw_doc := None;
       kw_cls_req := None; kw_cls_opt := None; kw_cls_err := None;
       kw_span_doc := None; kw_span_err := None; kw_date := None;
       kw_time := None; kw_datetime := None |} kw.


Definition with_error (e : gmap nat string) (kw : kwargs) : kwargs :=
  merge_kwargs
    {| kw_pk := None; kw_exclude := None; kw_include := None;
       kw_options := None; kw_make_label := None; kw_prettify := None;
       kw_alias := None; kw_focus := None; kw_error := Some e; kw_doc := None;
       kw_cls_req := None; kw_cls_opt := None; kw_cls_err := None;
       kw_span_doc := None; kw_span_err := None; kw_date := None;
       kw_time := None; kw_datetime := None |} kw.

Definition with_date (d : string) (kw : kwargs) : kwargs :=
  merge_kwargs
    {| kw_pk := None; kw_exclude := None; kw_include := None;
       kw_options := None; kw_make_label := None; kw_prettify := None;
       kw_alias := None; kw_focus := None; kw_error := None; kw_doc := None;
       kw_cls_req := None; kw_cls_opt := None; kw_cls_err := None;
       kw_span_doc := None; kw_span_err := None; kw_date := Some d;
       kw_time := None; kw_datetime := None |} kw.

End Sample.

(** * Properties *)

(** ** The error monad *)

Lemma result_bind_Ok {A B} (f : A → result B) (a : A) : Ok a ≫= f = f a.
Proof. reflexivity. Qed.


(** ** Lists of values *)

Lemma wrappers_of_PyWrapper (l : list ref) : wrappers_of (PyWrapper <$> l) = l.
Proof.
  unfold wrappers_of. induction l as [|r l IH]; [done|].
  cbn. by f_equal.
Qed.

Lemma validate_columns_PyWrapper (l : list ref) :
  validate_columns (PyWrapper <$> l) = true.
Proof. unfold validate_columns. by induction l. Qed.

Lemma validate_columns_wrappers_of (l : list pyval) :
  validate_columns l = true → PyWrapper <$> wrappers_of l = l.
Proof.
  unfold validate_columns, wrappers_of.
  induction l as [|[r|s] l IH]; intros Hv; [done| |done].
  cbn. f_equal. by apply IH.
Qed.

Lemma truthy_false {A} (l : list A) : truthy l = false ↔ l = [].
Proof. by destruct l. Qed.

Lemma truthy_true {A} (l : list A) : truthy l = true ↔ l ≠ [].
Proof. by destruct l. Qed.

(** ** Sorting by name *)

#[global] Instance name_le_trans (h : heap) : Transitive (name_le h).
Proof. intros a b c. unfold name_le. apply transitivity. Qed.

Lemma name_le_false (h : heap) (a b : ref) :
  String.leb (name (h !!! a)) (name (h !!! b)) = false → name_le h b a.
Proof.
  intros Hab. unfold name_le.
  destruct (total String.le (name (h !!! a)) (name (h !!! b))) as [Hle|Hle];
    [|done].
  unfold String.le in Hle. rewrite Hab in Hle. done.
Qed.

Lemma insert_by_name_Permutation (h : heap) (x : ref) (l : list ref) :
  insert_by_name h x l ≡ₚ x :: l.
Proof.
  induction l as [|y l IH]; simpl; [done|].
  destruct (String.leb _ _); [done|].
  rewrite IH. apply Permutation_swap.
Qed.

Lemma sort_by_name_Permutation (h : heap) (l : list ref) :
  sort_by_name h l ≡ₚ l.
Proof.
  induction l as [|x l IH]; simpl; [done|].
  by rewrite insert_by_name_Permutation, IH.
Qed.

Lemma insert_by_name_Sorted (h : heap) (x : ref) (l : list ref) :
  Sorted (name_le h) l → Sorted (name_le h) (insert_by_name h x l).
Proof.
  induction l as [|y l IH]; simpl; intros Hs.
  - by repeat constructor.
  - destruct (String.leb _ _) eqn:Hxy.
    + constructor; [done|]. constructor. unfold name_le, String.le.
      by rewrite Hxy.
    + apply Sorted_inv in Hs as [Hs Hhd]. constructor; [by apply IH|].
      destruct l as [|z l]; simpl.
      * constructor. by apply name_le_false.
      * destruct (String.leb _ (name (h !!! z))).
        -- constructor. by apply name_le_false.
        -- constructor. by apply HdRel_inv in Hhd.
Qed.

Lemma sort_by_name_Sorted (h : heap) (l : list ref) :
  Sorted (name_le h) (sort_by_name h l).
Proof.
  induction l as [|x l IH]; simpl; [constructor|].
  by apply insert_by_name_Sorted.
Qed.

Lemma sort_by_name_StronglySorted (h : heap) (l : list ref) :
  StronglySorted (name_le h) (sort_by_name h l).
Proof. apply Sorted_StronglySorted; [apply _|apply sort_by_name_Sorted]. Qed.

(** The sort is stable: wrappers with the same name keep their order. *)
Lemma insert_by_name_stable (h : heap) (n : string) (x : ref) (l : list ref) :
  filter (λ r, name (h !!! r) = n) (insert_by_name h x l)
  = filter (λ r, name (h !!! r) = n) (x :: l).
Proof.
  induction l as [|y l IH]; simpl; [done|].
  destruct (String.leb _ _) eqn:Hxy; [done|].
  rewrite (filter_cons _ y), IH, !filter_cons.
  destruct (decide (name (h !!! y) = n)) as [Hy|Hy],
    (decide (name (h !!! x) = n)) as [Hx|Hx]; try done.
  rewrite Hx, Hy in Hxy.
  pose proof (reflexivity (R := String.le) n) as Hn.
  unfold String.le in Hn. by rewrite Hxy in Hn.
Qed.

Lemma sort_by_name_stable (h : heap) (n : string) (l : list ref) :
  filter (λ r, name (h !!! r) = n) (sort_by_name h l)
  = filter (λ r, name (h !!! r) = n) l.
Proof.
  induction l as [|x l IH]; simpl; [done|].
  by rewrite insert_by_name_stable, !filter_cons, IH.
Qed.

Lemma StronglySorted_filter {A} (R : relation A) (P : A → Prop)
    `{!∀ x, Decision (P x)} (l : list A) :
  StronglySorted R l → StronglySorted R (filter P l).
Proof.
  induction 1 as [|x l Hs IH Hx]; [constructor|].
  rewrite filter_cons. destruct (decide (P x)); [|done].
  constructor; [done|].
  apply Forall_forall. intros y [_ Hy]%list_elem_of_filter.
  by eapply Forall_forall in Hx.
Qed.

(** ** Selection *)

Lemma filter_ext_elem_of {A} (P Q : A → Prop) `{!∀ x, Decision (P x)}
    `{!∀ x, Decision (Q x)} (l : list A) :
  (∀ x, x ∈ l → P x ↔ Q x) → filter P l = filter Q l.
Proof.
  induction l as [|x l IH]; intros HPQ; [done|].
  rewrite !filter_cons.
  assert (P x ↔ Q x) as Hx by (apply HPQ; left).
  rewrite IH by (intros y Hy; apply HPQ; by right).
  destruct (decide (P x)), (decide (Q x)); tauto.
Qed.

Lemma fold_left_append_override {A} (g : A → option A) (l acc : list A) :
  fold_left (λ L w, match g w with
                    | Some o => L ++ [o]
                    | None => L ++ [w]
                    end) l acc
  = acc ++ ((λ w, default w (g w)) <$> l).
Proof.
  revert acc. induction l as [|w l IH]; intros acc; simpl.
  - by rewrite app_nil_r.
  - rewrite IH. destruct (g w); simpl; by rewrite <-app_assoc.
Qed.

Lemma fold_left_snoc {A} (l acc : list A) :
  fold_left (λ L w, L ++ [w]) l acc = acc ++ l.
Proof.
  revert acc. induction l as [|w l IH]; intros acc; simpl.
  - by rewrite app_nil_r.
  - by rewrite IH, <-app_assoc.
Qed.

Section selection.
Context `{!Fields, !Utils}.


Lemma py_in_elem_of (h : heap) (x : ref) (l : list ref) :
  x ∈ l → py_in h x l = true.
Proof.
  intros Hx. unfold py_in. apply existsb_exists. exists x.
  split; [by apply list_elem_of_In|].
  unfold py_eq. by rewrite bool_decide_eq_true_2.
Qed.

Lemma py_in_true (h : heap) (x : ref) (l : list ref) :
  py_in h x l = true ↔ ∃ y, y ∈ l ∧ py_eq h x y = true.
Proof.
  unfold py_in. rewrite existsb_exists.
  split; intros (y & Hy & Heq); exists y; by rewrite list_elem_of_In in *.
Qed.

Lemma py_in_app (h : heap) (x : ref) (l1 l2 : list ref) :
  py_in h x (l1 ++ l2) = py_in h x l1 || py_in h x l2.
Proof. apply existsb_app. Qed.

(** Every entry of the dictionary built from the options list has its key
    and its value in that list, and the value is the key or was stored under
    the key because it matched it. *)
Lemma dict_setitem_entries (h : heap) (opts : list ref) (d : list (ref * ref))
    (o : ref) :
  o ∈ opts →
  (∀ k v, (k, v) ∈ d → k ∈ opts ∧ v ∈ opts ∧ (v = k ∨ key_match h k v = true)) →
  ∀ k v, (k, v) ∈ dict_setitem h d o o →
    k ∈ opts ∧ v ∈ opts ∧ (v = k ∨ key_match h k v = true).
Proof.
  intros Ho. induction d as [|[k' v'] d IH]; simpl; intros Hd k v Hkv.
  - apply list_elem_of_singleton in Hkv. simplify_eq. auto.
  - destruct (key_match h k' o) eqn:Hm.
    + apply elem_of_cons in Hkv as [Hkv|Hkv].
      * simplify_eq. destruct (Hd k' v') as (? & _ & _); [left|]. auto.
      * apply Hd. by right.
    + apply elem_of_cons in Hkv as [Hkv|Hkv].
      * simplify_eq. apply Hd. left.
      * apply IH; [|done]. intros ???. apply Hd. by right.
Qed.

Lemma dict_update_entries (h : heap) (opts items : list ref)
    (d : list (ref * ref)) :
  items ⊆ opts →
  (∀ k v, (k, v) ∈ d → k ∈ opts ∧ v ∈ opts ∧ (v = k ∨ key_match h k v = true)) →
  ∀ k v, (k, v) ∈ dict_update h d ((λ o, (o, o)) <$> items) →
    k ∈ opts ∧ v ∈ opts ∧ (v = k ∨ key_match h k v = true).
Proof.
  unfold dict_update. revert d.
  induction items as [|o items IH]; simpl; intros d Hsub Hd; [done|].
  apply IH.
  - intros x Hx. apply Hsub. by right.
  - apply dict_setitem_entries; [|done]. apply Hsub. left.
Qed.

Lemma dict_get_Some (h : heap) (d : list (ref * ref)) (x v : ref) :
  dict_get h d x = Some v → ∃ k, (k, v) ∈ d ∧ key_match h k x = true.
Proof.
  induction d as [|[k' v'] d IH]; simpl; [done|].
  destruct (key_match h k' x) eqn:Hm.
  - intros [= ->]. exists k'. split; [left|done].
  - intros (k & Hk & Hkx)%IH. exists k. split; [by right|done].
Qed.

Lemma spec_override_nil (h : heap) (w : ref) : spec_override h [] w = w.
Proof. reflexivity. Qed.




(** A selected wrapper is kept, or replaced by an entry of the options list
    that was stored under a key matching the wrapper. *)
Lemma spec_override_cases (h : heap) (options : list ref) (w : ref) :
  spec_override h options w = w
  ∨ ∃ k, k ∈ options
      ∧ spec_override h options w ∈ options
      ∧ key_match h k w = true
      ∧ (spec_override h options w = k
         ∨ key_match h k (spec_override h options w) = true).
Proof.
  unfold spec_override.
  destruct (dict_get _ _ _) as [v|] eqn:Hget; [simpl|by left].
  apply dict_get_Some in Hget as (k & Hkv & Hkw).
  apply (dict_update_entries h options options) in Hkv as (Hk & Hv & Hkv);
    [|done|by intros ?? ?%elem_of_nil].
  right. exists k. by split_and!.
Qed.

(** Under equality by identity the two side conditions on wrapper equality
    hold for every form and every list. *)
Lemma py_eq_identity (h : heap) (a b : ref) :
  (∀ x y, wrapper_eq x y = false) → py_eq h a b = true → a = b.
Proof.
  intros Hid. unfold py_eq. rewrite Hid, orb_false_r.
  apply bool_decide_eq_true.
Qed.

Lemma overrides_inert_identity (h : heap) (options selected : list ref) :
  (∀ x y, wrapper_eq x y = false) → overrides_inert h options selected = true.
Proof.
  intros Hid. unfold overrides_inert.
  apply forallb_forall. intros w _. apply forallb_forall. intros o _.
  destruct (py_eq h o w) eqn:How; simpl.
  - apply bool_decide_eq_true. by eapply py_eq_identity.
  - destruct (py_eq h w o) eqn:Hwo; simpl; [|done].
    apply bool_decide_eq_true. symmetry. by eapply py_eq_identity.
Qed.

Lemma owned_distinct_identity (h : heap) (self : FieldSet.t) :
  (∀ x y, wrapper_eq x y = false) → owned_distinct h self = true.
Proof.
  intros Hid. unfold owned_distinct. cbv zeta.
  apply forallb_forall. intros a _. apply forallb_forall. intros b _.
  destruct (py_eq h a b) eqn:Hab; simpl; [|done].
  apply bool_decide_eq_true. by eapply py_eq_identity.
Qed.

Lemma validate_params_Ok (include exclude options : list pyval) :
  validate_columns include = true →
  validate_columns exclude = true →
  validate_columns options = true →
  FieldSet.validate_params
    [("include", include); ("exclude", exclude); ("options", options)] = Ok ().
Proof. intros Hi He Ho. simpl. by rewrite Hi, He, Ho. Qed.

End selection.

Section get_attrs_include.
Context `{!Fields, !Utils}.



End get_attrs_include.

Lemma filter_ext_bool {A} (f g : A → bool) (l : list A) :
  (∀ x, x ∈ l → f x = g x) → filter f l = filter g l.
Proof.
  intros Hfg. apply filter_ext_elem_of. intros x Hx. by rewrite (Hfg x Hx).
Qed.

Section get_attrs_no_include.
Context `{!Fields, !Utils}.

Lemma owned_distinct_spec (h : heap) (self : FieldSet.t) :
  owned_distinct h self = true →
  ∀ a b, a ∈ FieldSet._raw_attrs h self → b ∈ FieldSet._raw_attrs h self →
    py_eq h a b = true → a = b.
Proof.
  unfold owned_distinct. cbv zeta. rewrite forallb_forall.
  intros Hall a b Ha Hb Heq.
  apply list_elem_of_In, Hall in Ha. rewrite forallb_forall in Ha.
  apply list_elem_of_In, Ha in Hb. cbv beta in Hb.
  rewrite Heq in Hb. by apply bool_decide_eq_true in Hb.
Qed.

(** Among the wrappers of a form, membership in a filtered part of them is
    decided by the filter. *)
Lemma py_in_filter_owned (h : heap) (self : FieldSet.t) (f : ref → bool)
    (w : ref) :
  owned_distinct h self = true →
  w ∈ FieldSet._raw_attrs h self →
  py_in h w (filter f (FieldSet._raw_attrs h self)) = f w.
Proof.
  intros Hd Hw. destruct (f w) eqn:Hfw.
  - apply py_in_elem_of, list_elem_of_filter. by rewrite Hfw.
  - apply not_true_is_false.
    intros (y & [Hfy Hy]%list_elem_of_filter & Heq)%py_in_true.
    assert (w = y) as -> by eauto using owned_distinct_spec.
    by rewrite Hfw in Hfy.
Qed.

Lemma get_attrs_body_default (get_pks : result (list ref)) (h : heap)
    (self : FieldSet.t) :
  FieldSet.get_attrs_body get_pks h self no_kwargs
  = Ok (filter
          (λ attr, negb (py_in h attr
             (filter (λ wrapper, raw_foreign_key (h !!! wrapper))
                (FieldSet._raw_attrs h self))))
          (FieldSet._raw_attrs h self)).
Proof.
  unfold FieldSet.get_attrs_body. cbn -[filter FieldSet._raw_attrs py_in].
  by rewrite fold_left_snoc.
Qed.

Lemma get_pks_eq (h : heap) (self : FieldSet.t) :
  FieldSet.get_pks h self
  = Ok (filter (λ wrapper, primary_key (column (h !!! wrapper)))
          (filter
             (λ attr, negb (py_in h attr
                (filter (λ wrapper, raw_foreign_key (h !!! wrapper))
                   (FieldSet._raw_attrs h self))))
             (FieldSet._raw_attrs h self))).
Proof. unfold FieldSet.get_pks. by rewrite get_attrs_body_default. Qed.

Lemma get_attrs_no_include (h : heap) (self : FieldSet.t) (kw : kwargs)
    (exclude : list ref) :
  default [] (kw_include kw) = [] →
  default [] (kw_exclude kw) = PyWrapper <$> exclude →
  validate_columns (default [] (kw_options kw)) = true →
  owned_distinct h self = true →
  FieldSet.get_attrs h self kw
  = Ok (spec_override h (wrappers_of (default [] (kw_options kw)))
          <$> spec_select h (FieldSet._raw_attrs h self)
                (default true (kw_pk kw)) exclude).
Proof.
  intros Hinc Hexc Hopt Hd.
  unfold FieldSet.get_attrs, FieldSet.get_attrs_body.
  rewrite Hinc, Hexc, get_pks_eq. cbn [truthy andb negb].
  rewrite validate_params_Ok by (done || apply validate_columns_PyWrapper).
  rewrite result_bind_Ok, wrappers_of_PyWrapper.
  set (all := FieldSet._raw_attrs h self) in *.
  set (is_fk := λ wrapper : ref, raw_foreign_key (h !!! wrapper)).
  set (is_pk := λ wrapper : ref, primary_key (column (h !!! wrapper))).
  assert (∀ w, w ∈ all → py_in h w (filter is_fk all) = is_fk w) as Hfks.
  { intros w Hw. by apply (py_in_filter_owned h self). }
  assert (∀ w, w ∈ all →
    py_in h w (filter is_pk
                 (filter (λ attr, negb (py_in h attr (filter is_fk all))) all))
    = is_pk w && negb (is_fk w)) as Hpks.
  { intros w Hw. rewrite list_filter_filter.
    rewrite (filter_ext_elem_of _ (λ x, is_pk x && negb (is_fk x))).
    - by apply (py_in_filter_owned h self).
    - intros x Hx. rewrite (Hfks x Hx).
      destruct (is_pk x), (is_fk x); simpl; tauto. }
  destruct (default true (kw_pk kw)) eqn:Hpk; cbn [negb];
    rewrite !result_bind_Ok, fold_left_append_override; simpl;
    do 2 f_equal; unfold spec_select; apply filter_ext_bool; intros w Hw;
    rewrite !py_in_app, ?Hpks, Hfks by done; fold (is_pk w) (is_fk w);
    destruct (py_in h w exclude), (is_pk w), (is_fk w); done.
Qed.

End get_attrs_no_include.

Lemma _raw_attrs_Permutation (h : heap) (self : FieldSet.t) :
  FieldSet._raw_attrs h self
  ≡ₚ wrappers_of (map_to_list (FieldSet.fs_dict self)).*2.
Proof. apply sort_by_name_Permutation. Qed.

Lemma _raw_attrs_StronglySorted (h : heap) (self : FieldSet.t) :
  StronglySorted (name_le h) (FieldSet._raw_attrs h self).
Proof. apply sort_by_name_StronglySorted. Qed.

Section get_attrs_selection.
Context `{!Fields, !WebHelpers, !Utils, !Models}.



End get_attrs_selection.



(** ** Errors of the selection *)

Section get_attrs_errors.
Context `{!Fields, !WebHelpers, !Utils, !Models}.

Lemma get_attrs_conflict (h : heap) (self : FieldSet.t) (kw : kwargs) :
  default [] (kw_include kw) ≠ [] →
  default [] (kw_exclude kw) ≠ [] →
  FieldSet.get_attrs h self kw
  = Raise (Exception "Specify at most one of include, exclude").
Proof.
  intros Hinc%truthy_true Hexc%truthy_true.
  unfold FieldSet.get_attrs, FieldSet.get_attrs_body.
  by rewrite Hinc, Hexc.
Qed.

(** C5.  When the include list and the exclude list are both non-empty,
    [get_attrs] raises the conflict error whatever the lists hold and
    whatever the form is, before any validation or selection; [render] with
    options that resolve to such lists raises the same error and returns no
    markup. *)
Theorem conflicting_filters_raise (h : heap) (self : FieldSet.t) (kw : kwargs) :
  default [] (kw_include kw) ≠ [] →
  default [] (kw_exclude kw) ≠ [] →
  FieldSet.get_attrs h self kw
  = Raise (Exception "Specify at most one of include, exclude")
  ∧ ∀ options, FieldSet.new_options self options = kw →
      FieldSet.render h self options
      = Raise (Exception "Specify at most one of include, exclude").
Proof.
  intros Hinc Hexc. split; [by apply get_attrs_conflict|].
  intros options <-. unfold FieldSet.render.
  by rewrite get_attrs_conflict.
Qed.

(** C8, amended.  When some of the include, exclude and options lists holds
    a value that is not a wrapper, and the include and exclude lists are not
    both non-empty, [get_attrs] raises [ValueError]; the message names the
    first such parameter, in the order include, exclude, options, and shows
    the value of that parameter, the whole list.  (When include and exclude
    are both non-empty the conflict error is raised first.) *)
Theorem invalid_filter_type_raises (h : heap) (self : FieldSet.t) (kw : kwargs) :
  truthy (default [] (kw_include kw)) && truthy (default [] (kw_exclude kw))
  = false →
  forallb (λ p, validate_columns p.2) (validated_params kw) = false →
  ∃ lst value,
    find (λ p, negb (validate_columns p.2)) (validated_params kw)
    = Some (lst, value)
    ∧ validate_columns value = false
    ∧ FieldSet.get_attrs h self kw
      = Raise (ValueError
          (lst +:+ " parameter should be an iterable of AttributeWrapper objects; was "
               +:+ py_str value)).
Proof.
  intros Hconf Hinv.
  unfold FieldSet.get_attrs, FieldSet.get_attrs_body. rewrite Hconf.
  unfold validated_params in *. cbn [forallb find snd FieldSet.validate_params] in *.
  destruct (validate_columns (default [] (kw_include kw))) eqn:Hi; cbn [negb];
    [|by eexists _, _].
  destruct (validate_columns (default [] (kw_exclude kw))) eqn:He; cbn [negb];
    [|by eexists _, _].
  destruct (validate_columns (default [] (kw_options kw))) eqn:Ho; cbn [negb];
    [done|by eexists _, _].
Qed.

End get_attrs_errors.

Lemma conflicting_filters_raise_witness :
  @FieldSet.render Sample.fields_by_column Sample.helpers Sample.utils
    Sample.models Sample.objects Sample.form
    (Sample.with_include [PyWrapper Sample.name_]
       (Sample.with_exclude [PyWrapper Sample.bio_] no_kwargs))
  = Raise (Exception "Specify at most one of include, exclude").
Proof.
  refine (proj2 (@conflicting_filters_raise Sample.fields_by_column
                   Sample.helpers Sample.utils Sample.models Sample.objects
                   Sample.form
                   (Sample.with_include [PyWrapper Sample.name_]
                      (Sample.with_exclude [PyWrapper Sample.bio_] no_kwargs))
                   _ _) _ _);
    [discriminate | discriminate | reflexivity].
Defined.

Lemma invalid_filter_type_raises_witness :
  @FieldSet.get_attrs Sample.fields_by_column Sample.utils Sample.objects
    Sample.form
    (Sample.with_exclude [PyWrapper Sample.bio_; PyOther "secret"] no_kwargs)
  = Raise (ValueError
      "exclude parameter should be an iterable of AttributeWrapper objects; was [<AttributeWrapper>,secret,]").
Proof.
  destruct (@invalid_filter_type_raises Sample.fields_by_column
              Sample.utils Sample.objects Sample.form
              (Sample.with_exclude [PyWrapper Sample.bio_; PyOther "secret"]
                 no_kwargs) eq_refl eq_refl)
    as (lst & value & Hfind & _ & Hraise).
  injection Hfind as <- <-. exact Hraise.
Defined.

(** C8 as stated fails: an include list holding a string beside a non-empty
    exclude list raises the conflict error, not [ValueError]. *)
Lemma invalid_include_beside_exclude_raises_conflict :
  let kw := Sample.with_include [PyOther "name"]
              (Sample.with_exclude [PyWrapper Sample.bio_] no_kwargs) in
  validate_columns (default [] (kw_include kw)) = false
  ∧ @FieldSet.get_attrs Sample.fields_by_column Sample.utils Sample.objects
      Sample.form kw
    = Raise (Exception "Specify at most one of include, exclude")
  ∧ ¬ ∃ msg, @FieldSet.get_attrs Sample.fields_by_column Sample.utils
               Sample.objects Sample.form kw
             = Raise (ValueError msg).
Proof.
  split_and!; [reflexivity|reflexivity|].
  intros [msg Hmsg]. vm_compute in Hmsg. discriminate Hmsg.
Qed.

(** ** Strings *)

Lemma string_app_assoc (s1 s2 s3 : string) :
  (s1 +:+ s2) +:+ s3 = s1 +:+ s2 +:+ s3.
Proof.
  induction s1 as [|c s1 IH]; [done|]. exact (f_equal (String c) IH).
Qed.

Lemma string_app_nil_r (s : string) : s +:+ EmptyString = s.
Proof.
  induction s as [|c s IH]; [done|]. exact (f_equal (String c) IH).
Qed.

Lemma string_app_nil_l (s : string) : EmptyString +:+ s = s.
Proof. reflexivity. Qed.

Lemma strip_nl_app (s rest : string) :
  strip_nl ((s +:+ nl) +:+ rest) = strip_nl (s +:+ nl) +:+ rest.
Proof.
  destruct s as [|c s]; [reflexivity|].
  unfold strip_nl.
  change (startswith_nl ((String c s +:+ nl) +:+ rest))
    with (bool_decide (c = "010"%char)).
  change (startswith_nl (String c s +:+ nl))
    with (bool_decide (c = "010"%char)).
  by destruct (bool_decide _).
Qed.

(** ** One field *)

Section field_render.
Context `{!Fields, !WebHelpers, !Utils}.

Lemma span_step (texts : gmap nat string) (cls field : string)
    (w : AttributeWrapper) :
  (if bool_decide (is_Some (texts !! col_id (column w)))
   then field +:+ nl +:+ content_tag "span" (texts !!! col_id (column w)) cls
   else field)
  = field +:+ span_part texts cls w.
Proof.
  unfold span_part. rewrite lookup_total_alt.
  destruct (texts !! col_id (column w)) as [text|]; simpl; [done|].
  by rewrite string_app_nil_r.
Qed.

(** [Field.render] on the wrapper [attr]: the markup, followed by the focus
    script when the field can take it and the renderer has not emitted it
    yet. *)
Lemma Field_render_eq (h : heap) (self : Field.t) (attr : ref)
    (options : kwargs) :
  let self' := Field.set_attr self attr in
  let opts := Field.new_options self options in
  let w := h !!! attr in
  Field.render h self' options
  = Ok (if can_focus opts w && negb (Field._focus_rendered self)
        then (field_markup opts (Field._make_label self) w +:+ focus_tag w,
              Field.set_focus_rendered self' true)
        else (field_markup opts (Field._make_label self) w, self')).
Proof.
  intros self' opts w. unfold Field.render.
  change (Field.new_options self' options) with opts.
  change (Field.f_wrapper self') with (Some attr).
  cbv iota. rewrite result_bind_Ok. fold w.
  unfold can_focus, field_markup, visible.
  destruct (bool_decide (render_as w = Some HiddenField)); [done|].
  cbn [negb andb].
  change (Field.get_make_label self') with (Field._make_label self).
  change (Field._focus_rendered self') with (Field._focus_rendered self).
  rewrite !span_step.
  set (make_label := default (Field._make_label self) (kw_make_label opts)).
  match goal with
  | |- context [if startswith_nl ?f then drop_first ?f else ?f] =>
      assert ((if startswith_nl f then drop_first f else f)
              = field_body opts make_label w) as ->
  end.
  { unfold field_body, label_part. fold (strip_nl).
    rewrite <-strip_nl_app. f_equal.
    destruct make_label; by rewrite ?string_app_nil_l, ?string_app_assoc. }
  unfold focus_matches, focus_tag.
  by destruct (_ && _).
Qed.

End field_render.

(** C4.  For a wrapper rendered as a hidden field, [Field.render] returns the
    input fragment of the wrapper and nothing else, whatever the options and
    the state of the renderer are: no label, no error or documentation span,
    no wrapping container, and no focus script.  The renderer is left as it
    was, so the focus script is still available to a later field. *)
Theorem hidden_field_is_input_only `{!Fields, !WebHelpers, !Utils}
    (h : heap) (self : Field.t) (attr : ref) (options : kwargs) :
  render_as (h !!! attr) = Some HiddenField →
  Field.render h (Field.set_attr self attr) options
  = Ok (wrapper_render (h !!! attr), Field.set_attr self attr).
Proof.
  intros Hhidden. rewrite Field_render_eq.
  unfold can_focus, field_markup, visible.
  by rewrite Hhidden, bool_decide_eq_true_2.
Qed.

Lemma hidden_field_is_input_only_witness :
  let field_render := @Field.init Sample.models 7 (Some 1) None true in
  @Field.render Sample.fields_by_column Sample.helpers Sample.utils
    Sample.objects (Field.set_attr field_render Sample.bio_hidden)
    (Sample.with_error {[ 12 := "too long" ]} no_kwargs)
  = Ok ("<input name=bio>", Field.set_attr field_render Sample.bio_hidden).
Proof.
  intros field_render.
  exact (@hidden_field_is_input_only Sample.fields_by_column Sample.helpers
           Sample.utils Sample.objects field_render Sample.bio_hidden
           (Sample.with_error {[ 12 := "too long" ]} no_kwargs) eq_refl).
Defined.

Lemma span_part_empty `{!WebHelpers} (texts : gmap nat string) (cls : string)
    (w : AttributeWrapper) :
  span_part texts cls w = EmptyString ↔ texts !! col_id (column w) = None.
Proof.
  unfold span_part. destruct (texts !! col_id (column w)); [|done].
  split; intros Heq; [|done].
  change (nl +:+ ?s) with (String "010"%char s) in Heq. discriminate Heq.
Qed.

(** C9.  For a field that is not hidden, the markup is the label part, the
    input fragment, the error span and the documentation span in this order
    (then wrapped and followed by the focus script as the case may be).  The
    error span is present exactly when the column of the wrapper is a key of
    the [error] map, and is then a line break and a [span] with the mapped
    message and the [span_err] class; likewise the documentation span with
    the [doc] map and the [span_doc] class. *)
Theorem error_and_doc_spans `{!Fields, !WebHelpers, !Utils}
    (h : heap) (self : Field.t) (attr : ref) (options : kwargs) :
  visible (h !!! attr) = true →
  let opts := Field.new_options self options in
  let w := h !!! attr in
  let errors := default ∅ (kw_error opts) in
  let docs := default ∅ (kw_doc opts) in
  let cls_span_err := default "span_err" (kw_span_err opts) in
  let cls_span_doc := default "span_doc" (kw_span_doc opts) in
  let err := span_part errors cls_span_err w in
  let doc := span_part docs cls_span_doc w in
  let label :=
    strip_nl
      (label_part opts (default (Field._make_label self) (kw_make_label opts)) w
       +:+ nl) in
  let body := label +:+ wrapper_render w +:+ err +:+ doc in
  let wrapped :=
    if Field._make_label self then wrap "<div>" body "</div>" else body in
  (∃ focus self',
     (focus = EmptyString ∨ focus = focus_tag w)
     ∧ Field.render h (Field.set_attr self attr) options
       = Ok (wrapped +:+ focus, self'))
  ∧ (err = EmptyString ↔ errors !! col_id (column w) = None)
  ∧ (∀ text, errors !! col_id (column w) = Some text →
       err = nl +:+ content_tag "span" text cls_span_err)
  ∧ (doc = EmptyString ↔ docs !! col_id (column w) = None)
  ∧ (∀ text, docs !! col_id (column w) = Some text →
       doc = nl +:+ content_tag "span" text cls_span_doc).
Proof.
  intros Hvis opts w errors docs cls_span_err cls_span_doc err doc label body
    wrapped.
  split_and!.
  - rewrite Field_render_eq. fold opts w.
    assert (field_markup opts (Field._make_label self) w = wrapped) as ->.
    { unfold field_markup. fold w in Hvis. by rewrite Hvis. }
    destruct (_ && _).
    + eexists _, _. split; [by right|done].
    + eexists EmptyString, _. split; [by left|].
      by rewrite string_app_nil_r.
  - apply span_part_empty.
  - intros text Htext. unfold err, span_part. by rewrite Htext.
  - apply span_part_empty.
  - intros text Htext. unfold doc, span_part. by rewrite Htext.
Qed.

Lemma error_and_doc_spans_witness :
  let field_render :=
    Field.set_make_label (@Field.init Sample.models 7 (Some 1) None true) false in
  ∃ focus self',
    @Field.render Sample.fields_by_column Sample.helpers Sample.utils
      Sample.objects (Field.set_attr field_render Sample.bio_)
      (Sample.with_error {[ 12 := "too long" ]} no_kwargs)
    = Ok (("<input name=bio>" +:+ nl +:+ "<span class=span_err>too long</span>")
            +:+ focus, self').
Proof.
  intros field_render.
  destruct (@error_and_doc_spans Sample.fields_by_column Sample.helpers
              Sample.utils Sample.objects field_render Sample.bio_
              (Sample.with_error {[ 12 := "too long" ]} no_kwargs) eq_refl)
    as ((focus & self' & _ & Hrender) & _).
  exists focus, self'. exact Hrender.
Defined.

(** The wrapping container follows the flag of the renderer, not the
    effective [make_label] option: with the flag set and the option false the
    label is left out and the rest is wrapped all the same. *)
Lemma label_off_still_wrapped `{!Fields, !WebHelpers, !Utils}
    (h : heap) (self : Field.t) (attr : ref) (options : kwargs) :
  visible (h !!! attr) = true →
  Field._make_label self = true →
  kw_make_label (Field.new_options self options) = Some false →
  let opts := Field.new_options self options in
  let w := h !!! attr in
  let err :=
    span_part (default ∅ (kw_error opts))
      (default "span_err" (kw_span_err opts)) w in
  let doc :=
    span_part (default ∅ (kw_doc opts))
      (default "span_doc" (kw_span_doc opts)) w in
  ∃ focus self',
    (focus = EmptyString ∨ focus = focus_tag w)
    ∧ Field.render h (Field.set_attr self attr) options
      = Ok (wrap "<div>" (wrapper_render w +:+ err +:+ doc) "</div>" +:+ focus,
            self').
Proof.
  intros Hvis Hflag Hopt opts w err doc.
  rewrite Field_render_eq. fold opts w.
  assert (field_markup opts (Field._make_label self) w
          = wrap "<div>" (wrapper_render w +:+ err +:+ doc) "</div>") as ->.
  { unfold field_markup, field_body, label_part. fold w in Hvis.
    rewrite Hvis, Hflag. unfold opts at 1. by rewrite Hopt. }
  destruct (_ && _).
  - eexists _, _. split; [by right|done].
  - eexists EmptyString, _. split; [by left|].
    by rewrite string_app_nil_r.
Qed.

(** C6, at a failing input.  A renderer whose own label flag is set, called
    with the option [make_label=False] on a text field: the label is left
    out, and yet the input is wrapped in the [div] container, because the
    wrapping step reads the flag of the renderer and not the option. *)
Theorem make_label_option_ignored_by_wrapping :
  let field_render :=
    Field.set_attr (@Field.init Sample.models 7 (Some 1) None true)
      Sample.name_ in
  @Field.render Sample.fields_by_column Sample.helpers Sample.utils
    Sample.objects field_render (Sample.with_make_label false no_kwargs)
  = Ok (("<div>" +:+ nl +:+ "<input name=name>" +:+ nl +:+ "</div>")
          +:+ @focus_tag Sample.helpers (Sample.objects !!! Sample.name_),
        Field.set_focus_rendered field_render true).
Proof. vm_compute. reflexivity. Qed.

(** ** The render pass *)

Section render_pass.
Context `{!Fields, !WebHelpers, !Utils, !Models}.

Lemma fragments_cons_None (opts : kwargs) (ml : bool) (h : heap) (attr : ref)
    (attrs : list ref) :
  fragments opts ml h None (attr :: attrs)
  = field_markup opts ml (h !!! attr) :: fragments opts ml h None attrs.
Proof. reflexivity. Qed.

Lemma fragments_cons_0 (opts : kwargs) (ml : bool) (h : heap) (attr : ref)
    (attrs : list ref) :
  fragments opts ml h (Some 0) (attr :: attrs)
  = (field_markup opts ml (h !!! attr) +:+ focus_tag (h !!! attr))
      :: fragments opts ml h None attrs.
Proof. reflexivity. Qed.

Lemma fragments_cons_S (opts : kwargs) (ml : bool) (h : heap) (attr : ref)
    (attrs : list ref) (n : nat) :
  fragments opts ml h (Some (S n)) (attr :: attrs)
  = field_markup opts ml (h !!! attr) :: fragments opts ml h (Some n) attrs.
Proof.
  unfold fragments. rewrite imap_cons. f_equal.
  apply imap_ext. intros i a _. simpl.
  destruct (decide (n = i)) as [->|Hne].
  - by rewrite !bool_decide_eq_true_2.
  - by rewrite !bool_decide_eq_false_2 by congruence.
Qed.

Lemma fragments_lookup (opts : kwargs) (ml : bool) (h : heap)
    (at_ : option nat) (attrs : list ref) (i : nat) (attr : ref) :
  attrs !! i = Some attr →
  fragments opts ml h at_ attrs !! i
  = Some (if bool_decide (at_ = Some i)
          then field_markup opts ml (h !!! attr) +:+ focus_tag (h !!! attr)
          else field_markup opts ml (h !!! attr)).
Proof. intros Hi. unfold fragments. by rewrite list_lookup_imap, Hi. Qed.

Lemma focus_position_cons (opts : kwargs) (h : heap) (attr : ref)
    (attrs : list ref) :
  focus_position opts h (attr :: attrs)
  = if can_focus opts (h !!! attr) then Some 0
    else S <$> focus_position opts h attrs.
Proof.
  unfold focus_position. cbn [list_find].
  destruct (can_focus opts (h !!! attr)); simpl; [done|].
  by destruct (list_find _ attrs) as [[??]|].
Qed.

(** The loop of [render]: it never fails; with a renderer that has emitted
    the focus script no field carries it, and otherwise the first field that
    can take it does.  The settings of the renderer stay as they are. *)
Lemma render_fields_eq (h : heap) (field_render : Field.t) (attrs : list ref)
    (html : list string) :
  let opts := Field.new_options field_render no_kwargs in
  let ml := Field._make_label field_render in
  ∃ field_render',
    FieldSet.render_fields h field_render attrs html
    = Ok (html ++ fragments opts ml h
                    (if Field._focus_rendered field_render then None
                     else focus_position opts h attrs) attrs,
          field_render').
Proof.
  revert field_render html.
  induction attrs as [|attr attrs IH]; intros field_render html opts ml.
  { exists field_render. simpl. destruct (Field._focus_rendered _);
      by rewrite app_nil_r. }
  cbn [FieldSet.render_fields]. rewrite Field_render_eq. fold opts ml.
  rewrite result_bind_Ok, focus_position_cons.
  destruct (Field._focus_rendered field_render) eqn:Hflag.
  - rewrite andb_false_r. cbn [fst snd].
    destruct (IH (Field.set_attr field_render attr)
                (html ++ [field_markup opts ml (h !!! attr)])) as [fr' ->].
    exists fr'. cbn [Field._focus_rendered Field.set_attr]. rewrite Hflag.
    by rewrite fragments_cons_None, <-app_assoc.
  - rewrite andb_true_r. destruct (can_focus opts (h !!! attr)); cbn [fst snd].
    + destruct (IH (Field.set_focus_rendered
                      (Field.set_attr field_render attr) true)
                  (html ++ [field_markup opts ml (h !!! attr)
                            +:+ focus_tag (h !!! attr)])) as [fr' ->].
      exists fr'. cbn [Field._focus_rendered Field.set_focus_rendered].
      by rewrite fragments_cons_0, <-app_assoc.
    + destruct (IH (Field.set_attr field_render attr)
                  (html ++ [field_markup opts ml (h !!! attr)])) as [fr' ->].
      exists fr'. cbn [Field._focus_rendered Field.set_attr]. rewrite Hflag.
      rewrite <-app_assoc. do 2 f_equal.
      change (Field.new_options (Field.set_attr field_render attr) no_kwargs)
        with opts.
      change (Field._make_label (Field.set_attr field_render attr)) with ml.
      destruct (focus_position opts h attrs) as [n|]; simpl.
      * by rewrite fragments_cons_S.
      * by rewrite fragments_cons_None.
Qed.

(** The renderer that [FieldSet.render] builds for a pass. *)
Lemma render_eq (h : heap) (self : FieldSet.t) (options : kwargs)
    (attrs : list ref) :
  let opts := FieldSet.new_options self options in
  let field_render :=
    Field.reconfigure
      (Field.init (FieldSet.fs_model self) (FieldSet.fs_session self) None true)
      opts in
  let field_opts := Field.new_options field_render no_kwargs in
  FieldSet.get_attrs h self opts = Ok attrs →
  FieldSet.render h self options
  = Ok (join_nl (fragments field_opts true h
                   (focus_position field_opts h attrs) attrs)).
Proof.
  intros opts field_render field_opts Hattrs. unfold FieldSet.render.
  fold opts. rewrite Hattrs, result_bind_Ok. fold field_render.
  destruct (render_fields_eq h field_render attrs []) as [fr' ->].
  by rewrite result_bind_Ok.
Qed.

End render_pass.

Section focus.
Context `{!Fields, !WebHelpers, !Utils, !Models}.

Lemma focus_position_Some (opts : kwargs) (h : heap) (attrs : list ref)
    (i : nat) :
  focus_position opts h attrs = Some i
  ↔ ∃ attr, attrs !! i = Some attr
      ∧ can_focus opts (h !!! attr) = true
      ∧ ∀ j b, j < i → attrs !! j = Some b → can_focus opts (h !!! b) = false.
Proof.
  unfold focus_position. split.
  - destruct (list_find _ attrs) as [[i' attr]|] eqn:Hfind; [|done].
    intros [= ->]. apply list_find_Some in Hfind as (Hi & Hfocus & Hfirst).
    exists attr. split_and!; [done|by apply Is_true_true|].
    intros j b Hj Hb. apply not_true_is_false.
    intros Hb'%Is_true_true. by eapply Hfirst.
  - intros (attr & Hi & Hfocus & Hfirst).
    assert (list_find (λ attr, can_focus opts (h !!! attr)) attrs
            = Some (i, attr)) as ->; [|done].
    apply list_find_Some. split_and!; [done|by apply Is_true_true|].
    intros j b Hb Hj Hb'%Is_true_true. by rewrite (Hfirst j b) in Hb'.
Qed.



End focus.




(** ** Binding *)

Lemma set_model_idemp (m : model_ref) (w : AttributeWrapper) :
  set_model m (set_model m w) = set_model m w.
Proof. reflexivity. Qed.

Lemma rebind_lookup (m : model_ref) (attrs : list ref) (h : heap) (r : ref) :
  fold_left (λ h attr, alter (set_model m) attr h) attrs h !! r
  = if decide (r ∈ attrs) then set_model m <$> h !! r else h !! r.
Proof.
  revert h. induction attrs as [|attr attrs IH]; intros h; simpl; [done|].
  rewrite IH, lookup_alter.
  destruct (decide (attr = r)) as [->|Hne].
  - rewrite (decide_True (P := r ∈ r :: attrs)) by left.
    destruct (decide (r ∈ attrs)); [|done].
    by destruct (h !! r).
  - destruct (decide (r ∈ attrs)) as [Hin|Hnin].
    + by rewrite decide_True by by right.
    + rewrite decide_False; [done|].
      intros [?|?]%elem_of_cons; congruence.
Qed.

(** What [bind] does: the form takes the new model and session and keeps its
    instance dictionary and options; the heap keeps its objects; each wrapper
    of the form takes the new model and keeps every other attribute, its
    session included; every other object is untouched. *)
Lemma bind_spec (h : heap) (self : FieldSet.t) (m : model_ref)
    (s : option session_ref) :
  let h' := (FieldSet.bind h self m s).1 in
  let self' := (FieldSet.bind h self m s).2 in
  FieldSet.fs_model self' = m
  ∧ FieldSet.fs_session self' = s
  ∧ FieldSet.fs_dict self' = FieldSet.fs_dict self
  ∧ FieldSet.fs_config self' = FieldSet.fs_config self
  ∧ FieldSet.fs_defaults self' = FieldSet.fs_defaults self
  ∧ dom h' = dom h
  ∧ (∀ r, r ∈ FieldSet._raw_attrs h self →
       h' !! r = set_model m <$> h !! r)
  ∧ (∀ r, r ∉ FieldSet._raw_attrs h self → h' !! r = h !! r)
  ∧ (∀ w, name (set_model m w) = name w
          ∧ column (set_model m w) = column w
          ∧ nullable (set_model m w) = nullable w
          ∧ raw_foreign_key (set_model m w) = raw_foreign_key w
          ∧ render_as (set_model m w) = render_as w
          ∧ render_opts (set_model m w) = render_opts w
          ∧ model (set_model m w) = m
          ∧ session (set_model m w) = session w).
Proof.
  intros h' self'. split_and!; try done.
  - apply set_eq. intros r. rewrite !elem_of_dom. unfold h'.
    cbn [FieldSet.bind fst]. rewrite rebind_lookup.
    destruct (decide _); [|done]. by rewrite fmap_is_Some.
  - intros r Hr. unfold h'. cbn [FieldSet.bind fst].
    rewrite rebind_lookup. by rewrite decide_True.
  - intros r Hr. unfold h'. cbn [FieldSet.bind fst].
    rewrite rebind_lookup. by rewrite decide_False.
Qed.

(** C7, at a failing input.  The sample form, whose wrappers were created
    with session 1, is bound to model 8 and session 2: the form records the
    new session and the wrapper [name] takes the new model, but the wrapper
    keeps session 1. *)
Theorem bind_keeps_wrapper_session :
  let h' := (FieldSet.bind Sample.objects Sample.form 8 (Some 2)).1 in
  let self' := (FieldSet.bind Sample.objects Sample.form 8 (Some 2)).2 in
  FieldSet.fs_model self' = 8
  ∧ FieldSet.fs_session self' = Some 2
  ∧ Sample.name_ ∈ FieldSet._raw_attrs h' self'
  ∧ model (h' !!! Sample.name_) = 8
  ∧ session (h' !!! Sample.name_) = Some 1.
Proof. vm_compute. split_and!; try done. repeat constructor. Qed.

(** * Further properties *)

(** ** Outcomes of the selection *)

Section get_attrs_outcomes.
Context `{!Fields, !Utils}.

(** With keyword arguments that pass both checks, [get_attrs] returns the
    selection with the overrides substituted. *)
Lemma get_attrs_valid (h : heap) (self : FieldSet.t) (kw : kwargs) :
  truthy (default [] (kw_include kw)) && truthy (default [] (kw_exclude kw))
  = false →
  forallb (λ p, validate_columns p.2) (validated_params kw) = true →
  FieldSet.get_attrs h self kw
  = Ok (spec_override h (wrappers_of (default [] (kw_options kw)))
          <$> selected h self kw).
Proof.
  intros Hconf Hvalid.
  unfold validated_params in Hvalid. cbn [forallb snd] in Hvalid.
  apply andb_true_iff in Hvalid as [Hi [He [Ho _]%andb_true_iff]%andb_true_iff].
  unfold FieldSet.get_attrs, FieldSet.get_attrs_body, selected.
  rewrite Hconf, validate_params_Ok, result_bind_Ok, get_pks_eq by done.
  destruct (truthy (default [] (kw_include kw))); cbn [negb].
  - by rewrite result_bind_Ok, fold_left_append_override.
  - destruct (default true (kw_pk kw)); cbn [negb];
      rewrite !result_bind_Ok, fold_left_append_override; [done|].
    by rewrite <-app_assoc.
Qed.

Lemma get_attrs_invalid (h : heap) (self : FieldSet.t) (kw : kwargs) :
  truthy (default [] (kw_include kw)) && truthy (default [] (kw_exclude kw))
  = false →
  forallb (λ p, validate_columns p.2) (validated_params kw) = false →
  ∃ msg, FieldSet.get_attrs h self kw = Raise (ValueError msg).
Proof.
  intros Hconf Hinv.
  unfold FieldSet.get_attrs, FieldSet.get_attrs_body. rewrite Hconf.
  unfold validated_params in Hinv.
  cbn [forallb snd FieldSet.validate_params] in *.
  destruct (validate_columns (default [] (kw_include kw))); [|by eexists].
  destruct (validate_columns (default [] (kw_exclude kw))); [|by eexists].
  destruct (validate_columns (default [] (kw_options kw))); [done|by eexists].
Qed.

Lemma get_attrs_conflicting (h : heap) (self : FieldSet.t) (kw : kwargs) :
  truthy (default [] (kw_include kw)) && truthy (default [] (kw_exclude kw))
  = true →
  FieldSet.get_attrs h self kw
  = Raise (Exception "Specify at most one of include, exclude").
Proof.
  intros Hconf. unfold FieldSet.get_attrs, FieldSet.get_attrs_body.
  by rewrite Hconf.
Qed.

Lemma get_attrs_Ok_valid (h : heap) (self : FieldSet.t) (kw : kwargs)
    (L : list ref) :
  FieldSet.get_attrs h self kw = Ok L →
  truthy (default [] (kw_include kw)) && truthy (default [] (kw_exclude kw))
  = false
  ∧ forallb (λ p, validate_columns p.2) (validated_params kw) = true.
Proof.
  intros HL.
  destruct (truthy _ && truthy _) eqn:Hconf.
  { by rewrite get_attrs_conflicting in HL. }
  destruct (forallb _ (validated_params kw)) eqn:Hvalid; [done|].
  destruct (get_attrs_invalid h self kw Hconf Hvalid) as [msg Hmsg].
  by rewrite Hmsg in HL.
Qed.

Lemma fmap_spec_override_nil (h : heap) (l : list ref) :
  spec_override h [] <$> l = l.
Proof. induction l as [|w l IH]; [done|]. cbn. by f_equal. Qed.

(** X1.  [get_attrs] returns a list exactly when the include and exclude
    lists are not both non-empty and the include, exclude and options lists
    all pass [validate_columns]: the two configuration errors are the only
    exceptions it raises, and the selection itself cannot fail. *)
Theorem get_attrs_returns_iff_valid (h : heap) (self : FieldSet.t)
    (kw : kwargs) :
  (∃ L, FieldSet.get_attrs h self kw = Ok L)
  ↔ truthy (default [] (kw_include kw)) && truthy (default [] (kw_exclude kw))
    = false
    ∧ forallb (λ p, validate_columns p.2) (validated_params kw) = true.
Proof.
  split.
  - intros [L HL]. by eapply get_attrs_Ok_valid.
  - intros [Hconf Hvalid]. eexists. by apply get_attrs_valid.
Qed.

Lemma spec_override_unmatched (h : heap) (options : list ref) (w : ref) :
  (∀ o, o ∈ options → key_match h o w = false) →
  spec_override h options w = w.
Proof.
  intros Hno. destruct (spec_override_cases h options w)
    as [?|(k & Hk & _ & Hkw & _)]; [done|].
  by rewrite (Hno k Hk) in Hkw.
Qed.

(** X2.  The options list only substitutes: compared with the same call
    without [options], the result has the same length, and at every position
    it holds either the same wrapper or an entry of the options list that was
    stored under a key matching that wrapper; a wrapper that no entry of the
    options list matches stays in place.  Entries that match nothing are
    never added. *)
Theorem options_only_substitute (h : heap) (self : FieldSet.t) (kw : kwargs)
    (S : list ref) :
  validate_columns (default [] (kw_options kw)) = true →
  FieldSet.get_attrs h self (without_options kw) = Ok S →
  let options := wrappers_of (default [] (kw_options kw)) in
  ∃ L, FieldSet.get_attrs h self kw = Ok L
    ∧ length L = length S
    ∧ ∀ i w, S !! i = Some w →
        ∃ r, L !! i = Some r
          ∧ (r = w
             ∨ (r ∈ options ∧ ∃ k, k ∈ options ∧ key_match h k w = true))
          ∧ ((∀ o, o ∈ options → key_match h o w = false) → r = w).
Proof.
  intros Hopt HS options.
  destruct (get_attrs_Ok_valid _ _ _ _ HS) as [Hconf Hvalid].
  cbn [without_options kw_include kw_exclude] in Hconf.
  assert (forallb (λ p, validate_columns p.2) (validated_params kw) = true)
    as Hvalid'.
  { unfold validated_params in *. cbn [forallb snd] in *.
    cbn [without_options kw_include kw_exclude kw_options] in Hvalid.
    apply andb_true_iff in Hvalid
      as [Hi [He _]%andb_true_iff]. by rewrite Hi, He, Hopt. }
  rewrite get_attrs_valid in HS by done.
  cbn [without_options kw_options default from_option wrappers_of omap] in HS.
  injection HS as HS.
  assert (selected h self (without_options kw) = selected h self kw) as Hsel
    by done.
  rewrite Hsel in HS.
  rewrite fmap_spec_override_nil in HS. subst S.
  eexists. split; [by apply get_attrs_valid|]. fold options.
  split; [by rewrite length_fmap|].
  intros i w Hi. exists (spec_override h options w).
  rewrite list_lookup_fmap, Hi. split_and!; [done| |].
  - destruct (spec_override_cases h options w)
      as [?|(k & Hk & Hin & Hkw & _)]; [by left|right]. eauto.
  - apply spec_override_unmatched.
Qed.

End get_attrs_outcomes.

Lemma options_only_substitute_witness :
  ∃ L,
    @FieldSet.get_attrs Sample.fields_by_column Sample.utils Sample.objects
      Sample.form
      (Sample.with_include [PyWrapper Sample.name_; PyWrapper Sample.secret_id_]
         (Sample.with_options
            [PyWrapper Sample.name_password; PyWrapper Sample.bio_hidden]
            no_kwargs))
    = Ok L
    ∧ length L = 2.
Proof.
  destruct (@options_only_substitute Sample.fields_by_column Sample.utils
              Sample.objects Sample.form
              (Sample.with_include
                 [PyWrapper Sample.name_; PyWrapper Sample.secret_id_]
                 (Sample.with_options
                    [PyWrapper Sample.name_password;
                     PyWrapper Sample.bio_hidden]
                    no_kwargs))
              [Sample.name_; Sample.secret_id_] eq_refl eq_refl)
    as (L & HL & Hlen & _).
  exists L. split; [exact HL|exact Hlen].
Defined.

(** ** The wrappers of a form *)

Lemma length_wrappers_of (l : list (string * pyval)) :
  length (wrappers_of l.*2) = length (filter (λ kv, is_wrapper kv.2) l).
Proof.
  induction l as [|[k [r|s]] l IH]; [done| |].
  - rewrite filter_cons_True by done. cbn. by f_equal.
  - rewrite filter_cons_False by (by intros ?). exact IH.
Qed.

(** X3.  [_raw_attrs] lists exactly the wrappers stored in the instance
    dictionary, whatever other values the dictionary holds: a reference is
    listed iff some key of the dictionary is bound to that wrapper, there is
    one item per such entry, and the list is in ascending order of the
    wrappers' names. *)
Theorem raw_attrs_are_the_stored_wrappers (h : heap) (self : FieldSet.t) :
  let all := FieldSet._raw_attrs h self in
  (∀ r, r ∈ all
        ↔ ∃ key, FieldSet.fs_dict self !! key = Some (PyWrapper r))
  ∧ length all
    = length (filter (λ kv, is_wrapper kv.2)
                (map_to_list (FieldSet.fs_dict self)))
  ∧ StronglySorted (name_le h) all.
Proof.
  intros all. split_and!.
  - intros r. unfold all. rewrite _raw_attrs_Permutation.
    unfold wrappers_of. rewrite list_elem_of_omap. split.
    + intros ([r'|?] & Hv & [= ->]).
      apply list_elem_of_fmap in Hv as ([key v] & -> & Hkv).
      exists key. by apply elem_of_map_to_list.
    + intros [key Hkey]. exists (PyWrapper r). split; [|done].
      apply list_elem_of_fmap. exists (key, PyWrapper r).
      split; [done|]. by apply elem_of_map_to_list.
  - unfold all. rewrite _raw_attrs_Permutation. apply length_wrappers_of.
  - apply _raw_attrs_StronglySorted.
Qed.

(** X4.  Sorting by name makes the order reproducible: when the names of the
    wrappers are pairwise different, two lists of the same wrappers in any
    two orders (such as two iteration orders of the instance dictionary)
    are sorted to the same list. *)
Theorem sort_by_name_order_independent (h : heap) (l1 l2 : list ref) :
  l1 ≡ₚ l2 →
  NoDup ((λ r, name (h !!! r)) <$> l1) →
  sort_by_name h l1 = sort_by_name h l2.
Proof.
  intros Hperm Hnames.
  apply (StronglySorted_unique_strong (name_le h));
    [|apply sort_by_name_StronglySorted..|].
  - intros x1 x2 Hx1 Hx2 H12 H21.
    rewrite sort_by_name_Permutation in Hx1.
    rewrite sort_by_name_Permutation, <-Hperm in Hx2.
    apply (NoDup_fmap_1 (λ r, name (h !!! r)) l1) in Hnames as Hnodup.
    assert (name (h !!! x1) = name (h !!! x2)) as Heq
      by by apply (anti_symm String.le).
    apply list_elem_of_lookup in Hx1 as [i Hi], Hx2 as [j Hj].
    assert (i = j) as ->.
    { eapply NoDup_lookup; [exact Hnames|..];
        rewrite list_lookup_fmap; [by rewrite Hi|by rewrite Hj, Heq]. }
    congruence.
  - by rewrite !sort_by_name_Permutation.
Qed.

Lemma sort_by_name_order_independent_witness :
  sort_by_name Sample.objects [Sample.name_; Sample.bio_; Sample.id_]
  = sort_by_name Sample.objects [Sample.id_; Sample.name_; Sample.bio_].
Proof.
  apply sort_by_name_order_independent.
  - symmetry.
    apply (Permutation_cons_append [Sample.name_; Sample.bio_] Sample.id_).
  - apply (bool_decide_unpack _). vm_compute. exact I.
Defined.

(** ** Primary keys and required attributes *)

Section keys.
Context `{!Fields, !Utils}.

Lemma filter_default_selection (h : heap) (self : FieldSet.t) (f : ref → bool) :
  owned_distinct h self = true →
  filter f
    (filter
       (λ attr, negb (py_in h attr
          (filter (λ wrapper, raw_foreign_key (h !!! wrapper))
             (FieldSet._raw_attrs h self))))
       (FieldSet._raw_attrs h self))
  = filter (λ w, f w && negb (raw_foreign_key (h !!! w)))
      (FieldSet._raw_attrs h self).
Proof.
  intros Hd. rewrite list_filter_filter. apply filter_ext_elem_of.
  intros w Hw.
  rewrite (py_in_filter_owned h self (λ w, raw_foreign_key (h !!! w))) by done.
  destruct (f w), (raw_foreign_key (h !!! w)); simpl; tauto.
Qed.

(** X5.  [get_pks] never raises.  For a form whose distinct wrappers do not
    compare equal it returns, in ascending order of name, the wrappers whose
    column is a primary key, except those that are raw foreign keys: a
    primary key that is also a raw foreign key is not listed. *)
Theorem get_pks_lists_primary_keys (h : heap) (self : FieldSet.t) :
  owned_distinct h self = true →
  let pks :=
    filter (λ w, primary_key (column (h !!! w))
                 && negb (raw_foreign_key (h !!! w)))
      (FieldSet._raw_attrs h self) in
  FieldSet.get_pks h self = Ok pks ∧ StronglySorted (name_le h) pks.
Proof.
  intros Hd pks. split.
  - rewrite get_pks_eq. f_equal.
    by apply (filter_default_selection h self
                (λ w, primary_key (column (h !!! w)))).
  - apply StronglySorted_filter, _raw_attrs_StronglySorted.
Qed.

(** X6.  [get_required] never raises.  For a form whose distinct wrappers do
    not compare equal it returns, in ascending order of name, the wrappers
    whose column is not nullable, except those that are raw foreign keys. *)
Theorem get_required_lists_non_nullable (h : heap) (self : FieldSet.t) :
  owned_distinct h self = true →
  let required :=
    filter (λ w, negb (col_nullable (column (h !!! w)))
                 && negb (raw_foreign_key (h !!! w)))
      (FieldSet._raw_attrs h self) in
  FieldSet.get_required h self = Ok required
  ∧ StronglySorted (name_le h) required.
Proof.
  intros Hd required. split.
  - unfold FieldSet.get_required, FieldSet.get_attrs.
    rewrite get_attrs_body_default, result_bind_Ok. f_equal.
    by apply (filter_default_selection h self
                (λ w, negb (col_nullable (column (h !!! w))))).
  - apply StronglySorted_filter, _raw_attrs_StronglySorted.
Qed.

(** X7.  Turning the primary keys off removes the primary keys and nothing
    else: for an empty include list, an exclude list of wrappers and no
    options list, the result of [get_attrs] with [pk=False] is the result
    with [pk=True] without the wrappers whose column is a primary key, in
    the same order. *)
Theorem pk_false_removes_primary_keys (h : heap) (self : FieldSet.t)
    (kw : kwargs) (exclude : list ref) :
  default [] (kw_include kw) = [] →
  default [] (kw_exclude kw) = PyWrapper <$> exclude →
  default [] (kw_options kw) = [] →
  owned_distinct h self = true →
  ∃ L, FieldSet.get_attrs h self (set_pk true kw) = Ok L
    ∧ FieldSet.get_attrs h self (set_pk false kw)
      = Ok (filter (λ w, negb (primary_key (column (h !!! w)))) L).
Proof.
  intros Hinc Hexc Hopt Hd.
  assert (∀ b, FieldSet.get_attrs h self (set_pk b kw)
               = Ok (spec_select h (FieldSet._raw_attrs h self) b exclude))
    as Hget.
  { intros b.
    rewrite (get_attrs_no_include h self _ exclude);
      [|done|done|cbn [set_pk kw_options]; by rewrite Hopt|done].
    cbn [set_pk kw_options kw_pk default from_option id].
    rewrite Hopt. cbn [wrappers_of omap].
    by rewrite fmap_spec_override_nil. }
  exists (spec_select h (FieldSet._raw_attrs h self) true exclude).
  rewrite !Hget. split; [done|]. f_equal. unfold spec_select.
  rewrite list_filter_filter. apply filter_ext_elem_of. intros w _.
  destruct (py_in h w exclude), (primary_key _), (raw_foreign_key _);
    simpl; tauto.
Qed.

End keys.

Lemma get_pks_lists_primary_keys_witness :
  @FieldSet.get_pks Sample.fields_by_column Sample.utils Sample.objects
    Sample.form
  = Ok [Sample.id_].
Proof.
  exact (proj1 (@get_pks_lists_primary_keys Sample.fields_by_column
                  Sample.utils Sample.objects Sample.form eq_refl)).
Defined.

Lemma get_required_lists_non_nullable_witness :
  @FieldSet.get_required Sample.fields_by_column Sample.utils Sample.objects
    Sample.form
  = Ok [Sample.id_; Sample.name_].
Proof.
  exact (proj1 (@get_required_lists_non_nullable Sample.fields_by_column
                  Sample.utils Sample.objects Sample.form eq_refl)).
Defined.

Lemma pk_false_removes_primary_keys_witness :
  ∃ L,
    @FieldSet.get_attrs Sample.fields_by_column Sample.utils Sample.objects
      Sample.form (set_pk true (Sample.with_exclude [PyWrapper Sample.bio_]
                                  no_kwargs))
    = Ok L
    ∧ @FieldSet.get_attrs Sample.fields_by_column Sample.utils Sample.objects
        Sample.form (set_pk false (Sample.with_exclude [PyWrapper Sample.bio_]
                                     no_kwargs))
      = Ok (filter (λ w, negb (primary_key (column (Sample.objects !!! w)))) L).
Proof.
  exact (@pk_false_removes_primary_keys Sample.fields_by_column Sample.utils
           Sample.objects Sample.form
           (Sample.with_exclude [PyWrapper Sample.bio_] no_kwargs)
           [Sample.bio_] eq_refl eq_refl eq_refl eq_refl).
Defined.

(** ** More on one field *)

Section field_render_more.
Context `{!Fields, !WebHelpers, !Utils}.

Lemma Field_render_markup (h : heap) (self : Field.t) (attr : ref)
    (options : kwargs) :
  let opts := Field.new_options self options in
  let w := h !!! attr in
  ∃ focus self',
    (focus = EmptyString ∨ focus = focus_tag w)
    ∧ Field.render h (Field.set_attr self attr) options
      = Ok (field_markup opts (Field._make_label self) w +:+ focus, self').
Proof.
  intros opts w. rewrite Field_render_eq. fold opts w.
  destruct (_ && _).
  - eexists _, _. split; [by right|done].
  - eexists EmptyString, _. split; [by left|].
    by rewrite string_app_nil_r.
Qed.


Lemma same_but_formats_new_options (self : Field.t) (o o' : kwargs) :
  same_but_formats o o' →
  same_but_formats (Field.new_options self o) (Field.new_options self o').
Proof.
  unfold same_but_formats, Field.new_options, merge_kwargs. cbn.
  intros (-> & -> & -> & -> & -> & -> & -> & -> & -> & -> & -> & -> & -> & ->).
  by split_and!.
Qed.

(** X9.  [Field.render] does not use the [date], [time] and [datetime]
    format options nor the [cls_err] class: it reads them and passes none of
    them on, so two calls whose options differ only in these keys return the
    same result. *)
Theorem Field_render_ignores_formats (h : heap) (self : Field.t)
    (options options' : kwargs) :
  same_but_formats options options' →
  Field.render h self options = Field.render h self options'.
Proof.
  intros Hsame%(same_but_formats_new_options self).
  destruct Hsame as (_ & _ & _ & _ & Hml & Hpr & Hal & Hfo & Her & Hdo
                     & Hcr & Hco & Hsd & Hse).
  unfold Field.render. cbv zeta.
  by rewrite Hml, Hpr, Hal, Hfo, Her, Hdo, Hcr, Hco, Hsd, Hse.
Qed.

(** X10.  When the label is made (the effective [make_label] is true) for a
    field that is not hidden, the label is built for the column of the
    wrapper, with the alias registered for the wrapper's name as its text, or
    the name itself when there is none, with the [prettify] function, and
    with the class of [cls_opt] when the wrapper is nullable and of [cls_req]
    otherwise; it comes first, on a line of its own before the input. *)
Theorem label_text_and_class (h : heap) (self : Field.t) (attr : ref)
    (options : kwargs) :
  visible (h !!! attr) = true →
  default (Field._make_label self)
    (kw_make_label (Field.new_options self options)) = true →
  let opts := Field.new_options self options in
  let w := h !!! attr in
  let text := default (name w) (default ∅ (kw_alias opts) !! name w) in
  let cls :=
    if nullable w then default "field_opt" (kw_cls_opt opts)
    else default "field_req" (kw_cls_req opts) in
  let label := Label_render (column w) text (kw_prettify opts) cls in
  let rest :=
    wrapper_render w
      +:+ span_part (default ∅ (kw_error opts))
            (default "span_err" (kw_span_err opts)) w
      +:+ span_part (default ∅ (kw_doc opts))
            (default "span_doc" (kw_span_doc opts)) w in
  let body := strip_nl (label +:+ nl) +:+ rest in
  ∃ focus self',
    (focus = EmptyString ∨ focus = focus_tag w)
    ∧ Field.render h (Field.set_attr self attr) options
      = Ok ((if Field._make_label self then wrap "<div>" body "</div>"
             else body) +:+ focus, self').
Proof.
  intros Hvis Hml opts w text cls label rest body.
  destruct (Field_render_markup h self attr options)
    as (focus & self' & Hfocus & Hrender).
  exists focus, self'. split; [done|]. rewrite Hrender. do 3 f_equal.
  unfold field_markup, field_body, label_part. fold opts w.
  fold w in Hvis. fold opts in Hml. by rewrite Hvis, Hml.
Qed.

(** X11.  With labels off on both sides (the flag of the renderer is unset
    and the effective [make_label] is false), a field that is not hidden and
    whose column is in neither the error nor the documentation map renders
    to its input fragment alone, without a leading line break, followed only
    by the focus script when the field takes it. *)
Theorem bare_field_is_input (h : heap) (self : Field.t) (attr : ref)
    (options : kwargs) :
  visible (h !!! attr) = true →
  Field._make_label self = false →
  default false (kw_make_label (Field.new_options self options)) = false →
  default ∅ (kw_error (Field.new_options self options))
    !! col_id (column (h !!! attr)) = None →
  default ∅ (kw_doc (Field.new_options self options))
    !! col_id (column (h !!! attr)) = None →
  ∃ focus self',
    (focus = EmptyString ∨ focus = focus_tag (h !!! attr))
    ∧ Field.render h (Field.set_attr self attr) options
      = Ok (wrapper_render (h !!! attr) +:+ focus, self').
Proof.
  intros Hvis Hflag Hml Herr Hdoc.
  destruct (Field_render_markup h self attr options)
    as (focus & self' & Hfocus & Hrender).
  exists focus, self'. split; [done|]. rewrite Hrender. do 3 f_equal.
  unfold field_markup, field_body, label_part, span_part.
  rewrite Hvis, Hflag, Hml, Herr, Hdoc.
  by rewrite !string_app_nil_r.
Qed.

End field_render_more.

Lemma Field_render_ignores_formats_witness :
  let field_render :=
    Field.set_attr (@Field.init Sample.models 7 (Some 1) None true)
      Sample.name_ in
  @Field.render Sample.fields_by_column Sample.helpers Sample.utils
    Sample.objects field_render (Sample.with_date "%d/%m/%Y" no_kwargs)
  = @Field.render Sample.fields_by_column Sample.helpers Sample.utils
      Sample.objects field_render no_kwargs.
Proof.
  intros field_render.
  apply (@Field_render_ignores_formats Sample.fields_by_column Sample.helpers
           Sample.utils Sample.objects field_render).
  unfold same_but_formats. by split_and!.
Defined.

Lemma label_text_and_class_witness :
  let field_render := @Field.init Sample.models 7 (Some 1) None false in
  ∃ focus self',
    @Field.render Sample.fields_by_column Sample.helpers Sample.utils
      Sample.objects (Field.set_attr field_render Sample.bio_)
      (Sample.with_make_label true no_kwargs)
    = Ok (("<label class=field_opt>bio</label>" +:+ nl +:+ "<input name=bio>")
            +:+ focus, self').
Proof.
  intros field_render.
  destruct (@label_text_and_class Sample.fields_by_column Sample.helpers
              Sample.utils Sample.objects field_render Sample.bio_
              (Sample.with_make_label true no_kwargs) eq_refl eq_refl)
    as (focus & self' & _ & Hrender).
  exists focus, self'. exact Hrender.
Defined.

Lemma bare_field_is_input_witness :
  let field_render := @Field.init Sample.models 7 (Some 1) None false in
  ∃ focus self',
    @Field.render Sample.fields_by_column Sample.helpers Sample.utils
      Sample.objects (Field.set_attr field_render Sample.name_)
      (Sample.with_error {[ 12 := "too long" ]} no_kwargs)
    = Ok ("<input name=name>" +:+ focus, self').
Proof.
  intros field_render.
  assert (default ∅
            (kw_error
               (Field.new_options field_render
                  (Sample.with_error {[ 12 := "too long" ]} no_kwargs)))
          !! col_id (column (Sample.objects !!! Sample.name_)) = None)
    as Herr by (vm_compute; reflexivity).
  destruct (@bare_field_is_input Sample.fields_by_column Sample.helpers
              Sample.utils Sample.objects field_render Sample.name_
              (Sample.with_error {[ 12 := "too long" ]} no_kwargs)
              eq_refl eq_refl eq_refl Herr eq_refl)
    as (focus & self' & _ & Hrender).
  exists focus, self'. exact Hrender.
Defined.

(** ** More on the render pass *)

Section render_more.
Context `{!Fields, !WebHelpers, !Utils, !Models}.





(** X14.  [FieldSet.render] always renders with a renderer whose label flag
    is set, so every selected field that is not hidden comes wrapped in the
    [div] container, whether or not the options ask for labels; a hidden
    field comes as its input fragment alone.  Only the field at the position
    of the focus script has anything after the container. *)
Theorem render_wraps_every_visible_field (h : heap) (self : FieldSet.t)
    (options : kwargs) (attrs : list ref) :
  let opts := FieldSet.new_options self options in
  let field_render :=
    Field.reconfigure
      (Field.init (FieldSet.fs_model self) (FieldSet.fs_session self) None true)
      opts in
  let field_opts := Field.new_options field_render no_kwargs in
  FieldSet.get_attrs h self opts = Ok attrs →
  ∃ html,
    FieldSet.render h self options = Ok (join_nl html)
    ∧ ∀ i attr, attrs !! i = Some attr →
        let w := h !!! attr in
        if visible w then
          ∃ focus,
            (focus = EmptyString ∨ focus = focus_tag w)
            ∧ html !! i
              = Some (wrap "<div>"
                        (field_body field_opts
                           (default true (kw_make_label field_opts)) w)
                        "</div>" +:+ focus)
        else html !! i = Some (wrapper_render w).
Proof.
  intros opts field_render field_opts Hattrs.
  exists (fragments field_opts true h (focus_position field_opts h attrs) attrs).
  split; [by apply render_eq|].
  intros i attr Hi w. rewrite (fragments_lookup _ _ _ _ _ _ _ Hi). fold w.
  destruct (visible w) eqn:Hvis.
  - unfold field_markup. rewrite Hvis.
    destruct (bool_decide _); [by exists (focus_tag w); auto|].
    exists EmptyString. split; [by left|]. by rewrite string_app_nil_r.
  - unfold field_markup. rewrite Hvis.
    rewrite bool_decide_eq_false_2; [done|].
    intros (attr' & Hi' & Hfocus & _)%focus_position_Some.
    unfold can_focus in Hfocus. assert (attr' = attr) as -> by congruence.
    fold w in Hfocus. by rewrite Hvis in Hfocus.
Qed.

End render_more.


Lemma render_wraps_every_visible_field_witness :
  ∃ html,
    @FieldSet.render Sample.fields_by_column Sample.helpers Sample.utils
      Sample.models Sample.objects Sample.form
      (Sample.with_make_label false no_kwargs)
    = Ok (join_nl html).
Proof.
  destruct (@render_wraps_every_visible_field Sample.fields_by_column
              Sample.helpers Sample.utils Sample.models Sample.objects
              Sample.form (Sample.with_make_label false no_kwargs)
              [Sample.bio_; Sample.id_; Sample.name_] eq_refl)
    as (html & Hrender & _).
  exists html. exact Hrender.
Defined.

(** ** More on binding *)

Lemma sort_by_name_ext (h h' : heap) (l : list ref) :
  (∀ r, name (h' !!! r) = name (h !!! r)) →
  sort_by_name h' l = sort_by_name h l.
Proof.
  intros Hname. induction l as [|x l IH]; [done|].
  cbn [sort_by_name foldr]. fold (sort_by_name h' l) (sort_by_name h l).
  rewrite IH. generalize (sort_by_name h l). intros sorted.
  induction sorted as [|y sorted IHs]; [done|].
  cbn [insert_by_name]. by rewrite !Hname, IHs.
Qed.

Lemma rebind_name (m : model_ref) (attrs : list ref) (h : heap) (r : ref) :
  name (fold_left (λ h attr, alter (set_model m) attr h) attrs h !!! r)
  = name (h !!! r).
Proof.
  rewrite !lookup_total_alt, rebind_lookup.
  destruct (decide (r ∈ attrs)); [|done]. by destruct (h !! r).
Qed.

Lemma bind_raw_attrs (h : heap) (self : FieldSet.t) (m : model_ref)
    (s : option session_ref) :
  FieldSet._raw_attrs (FieldSet.bind h self m s).1 (FieldSet.bind h self m s).2
  = FieldSet._raw_attrs h self.
Proof.
  unfold FieldSet._raw_attrs. cbn [FieldSet.bind fst snd].
  apply sort_by_name_ext. intros r. apply rebind_name.
Qed.

(** X15.  [bind] keeps the form's wrappers in place: no object of the heap is
    added or removed, the instance dictionary and the options of the form
    are unchanged, the wrappers are listed in the same order as before, each
    wrapper of the form has the new model and is otherwise as it was, and
    every object that is not a wrapper of the form is untouched. *)
Theorem bind_updates_models_in_place (h : heap) (self : FieldSet.t)
    (m : model_ref) (s : option session_ref) :
  let h' := (FieldSet.bind h self m s).1 in
  let self' := (FieldSet.bind h self m s).2 in
  dom h' = dom h
  ∧ FieldSet.fs_dict self' = FieldSet.fs_dict self
  ∧ FieldSet.fs_config self' = FieldSet.fs_config self
  ∧ FieldSet.fs_defaults self' = FieldSet.fs_defaults self
  ∧ FieldSet._raw_attrs h' self' = FieldSet._raw_attrs h self
  ∧ (∀ r w, r ∈ FieldSet._raw_attrs h self → h !! r = Some w →
       h' !! r
       = Some {| name := name w; column := column w; nullable := nullable w;
                 raw_foreign_key := raw_foreign_key w;
                 render_as := render_as w; render_opts := render_opts w;
                 model := m; session := session w |})
  ∧ (∀ r, r ∉ FieldSet._raw_attrs h self → h' !! r = h !! r).
Proof.
  intros h' self'.
  assert (∀ r, h' !! r
               = if decide (r ∈ FieldSet._raw_attrs h self)
                 then set_model m <$> h !! r else h !! r) as Hlookup.
  { intros r. unfold h'. cbn [FieldSet.bind fst]. apply rebind_lookup. }
  split_and!; try done.
  - apply set_eq. intros r. rewrite !elem_of_dom, Hlookup.
    destruct (decide _); [|done]. by rewrite fmap_is_Some.
  - apply bind_raw_attrs.
  - intros r w Hr Hw. by rewrite Hlookup, decide_True, Hw.
  - intros r Hr. by rewrite Hlookup, decide_False.
Qed.

(** X16.  Binding again replaces the binding: a form bound to one model and
    session and then to another is in the state, heap included, that binding
    it to the second alone gives; in particular binding twice to the same
    model and session is the same as binding once. *)
Theorem bind_last_wins (h : heap) (self : FieldSet.t) (m1 m2 : model_ref)
    (s1 s2 : option session_ref) :
  let st1 := FieldSet.bind h self m1 s1 in
  FieldSet.bind st1.1 st1.2 m2 s2 = FieldSet.bind h self m2 s2.
Proof.
  intros st1.
  assert (FieldSet._raw_attrs st1.1 st1.2 = FieldSet._raw_attrs h self)
    as Hraw by apply bind_raw_attrs.
  unfold FieldSet.bind at 1.
  change (FieldSet._raw_attrs st1.1 (FieldSet.base_bind st1.2 m2 s2))
    with (FieldSet._raw_attrs st1.1 st1.2).
  rewrite Hraw. unfold FieldSet.bind. f_equal.
  apply map_eq. intros r. rewrite !rebind_lookup.
  unfold st1. cbn [FieldSet.bind fst]. rewrite rebind_lookup.
  change (FieldSet._raw_attrs h (FieldSet.base_bind self m1 s1))
    with (FieldSet._raw_attrs h self).
  destruct (decide _); [|done].
  by destruct (h !! r).
Qed.

(** ** Selection after binding *)

Section selection_after_bind.
Context `{!Fields, !Utils}.

Lemma validate_params_invalid (kw : kwargs) :
  forallb (λ p, validate_columns p.2) (validated_params kw) = false →
  ∃ e, FieldSet.validate_params (validated_params kw) = Raise e.
Proof.
  unfold validated_params. cbn [forallb snd FieldSet.validate_params].
  destruct (validate_columns (default [] (kw_include kw))); [|by eexists].
  destruct (validate_columns (default [] (kw_exclude kw))); [|by eexists].
  destruct (validate_columns (default [] (kw_options kw))); [done|by eexists].
Qed.

Lemma get_attrs_validation_error (h : heap) (self : FieldSet.t) (kw : kwargs)
    (e : exn) :
  truthy (default [] (kw_include kw)) && truthy (default [] (kw_exclude kw))
  = false →
  FieldSet.validate_params (validated_params kw) = Raise e →
  FieldSet.get_attrs h self kw = Raise e.
Proof.
  intros Hconf He. unfold FieldSet.get_attrs, FieldSet.get_attrs_body.
  rewrite Hconf. unfold validated_params in He. by rewrite He.
Qed.

Lemma py_in_ext (h h' : heap) (x : ref) (l : list ref) :
  (∀ a b, py_eq h' a b = py_eq h a b) → py_in h' x l = py_in h x l.
Proof.
  intros Heq. unfold py_in. induction l as [|y l IH]; [done|].
  cbn [existsb]. by rewrite Heq, IH.
Qed.

Lemma dict_setitem_ext (h h' : heap) (d : list (ref * ref)) (k v : ref) :
  (∀ a b, key_match h' a b = key_match h a b) →
  dict_setitem h' d k v = dict_setitem h d k v.
Proof.
  intros Hkm. induction d as [|[k' v'] d IH]; [done|].
  cbn [dict_setitem]. by rewrite Hkm, IH.
Qed.

Lemma dict_update_ext (h h' : heap) (d items : list (ref * ref)) :
  (∀ a b, key_match h' a b = key_match h a b) →
  dict_update h' d items = dict_update h d items.
Proof.
  intros Hkm. unfold dict_update. revert d.
  induction items as [|kv items IH]; intros d; [done|].
  cbn [fold_left]. by rewrite (dict_setitem_ext h h'), IH.
Qed.

Lemma dict_get_ext (h h' : heap) (d : list (ref * ref)) (x : ref) :
  (∀ a b, key_match h' a b = key_match h a b) →
  dict_get h' d x = dict_get h d x.
Proof.
  intros Hkm. induction d as [|[k v] d IH]; [done|].
  cbn [dict_get]. by rewrite Hkm, IH.
Qed.

Lemma selected_ext (h h' : heap) (self self' : FieldSet.t) (kw : kwargs) :
  FieldSet._raw_attrs h' self' = FieldSet._raw_attrs h self →
  (∀ r, raw_foreign_key (h' !!! r) = raw_foreign_key (h !!! r)) →
  (∀ r, primary_key (column (h' !!! r)) = primary_key (column (h !!! r))) →
  (∀ a b, py_eq h' a b = py_eq h a b) →
  selected h' self' kw = selected h self kw.
Proof.
  intros Hraw Hfk Hpk Heq. unfold selected. rewrite Hraw.
  set (all := FieldSet._raw_attrs h self).
  assert (filter (λ wrapper, raw_foreign_key (h' !!! wrapper)) all
          = filter (λ wrapper, raw_foreign_key (h !!! wrapper)) all) as ->.
  { apply filter_ext_bool. intros r _. apply Hfk. }
  set (fks := filter (λ wrapper, raw_foreign_key (h !!! wrapper)) all).
  assert (filter (λ attr, negb (py_in h' attr fks)) all
          = filter (λ attr, negb (py_in h attr fks)) all) as ->.
  { apply filter_ext_bool. intros r _. by rewrite (py_in_ext h h'). }
  assert (∀ l, filter (λ wrapper, primary_key (column (h' !!! wrapper))) l
               = filter (λ wrapper, primary_key (column (h !!! wrapper))) l)
    as ->.
  { intros l. apply filter_ext_bool. intros r _. apply Hpk. }
  destruct (truthy _); [done|].
  apply filter_ext_bool. intros r _. by rewrite (py_in_ext h h').
Qed.

Lemma rebind_lookup_total (m : model_ref) (attrs : list ref) (h : heap)
    (r : ref) :
  let h' := fold_left (λ h attr, alter (set_model m) attr h) attrs h in
  h' !!! r = h !!! r ∨ h' !!! r = set_model m (h !!! r).
Proof.
  intros h'. unfold h'. rewrite !lookup_total_alt, rebind_lookup.
  destruct (decide (r ∈ attrs)); [|by left].
  destruct (h !! r); [by right|by left].
Qed.

(** X17.  When the equality and the hash of wrappers do not depend on the
    model a wrapper is bound to, binding a form changes nothing of what
    [get_attrs] returns: for every set of keyword arguments the call on the
    rebound form gives the same list, or raises the same exception, as on the
    form before. *)
Theorem get_attrs_after_bind (h : heap) (self : FieldSet.t) (m : model_ref)
    (s : option session_ref) (kw : kwargs) :
  (∀ a b m', wrapper_eq (set_model m' a) b = wrapper_eq a b) →
  (∀ a b m', wrapper_eq a (set_model m' b) = wrapper_eq a b) →
  (∀ a m', wrapper_hash (set_model m' a) = wrapper_hash a) →
  FieldSet.get_attrs (FieldSet.bind h self m s).1 (FieldSet.bind h self m s).2 kw
  = FieldSet.get_attrs h self kw.
Proof.
  intros Heql Heqr Hhash.
  set (h' := (FieldSet.bind h self m s).1).
  set (self' := (FieldSet.bind h self m s).2).
  assert (∀ r, h' !!! r = h !!! r ∨ h' !!! r = set_model m (h !!! r)) as Hh'.
  { intros r. apply rebind_lookup_total. }
  assert (∀ a b, wrapper_eq (h' !!! a) (h' !!! b)
                 = wrapper_eq (h !!! a) (h !!! b)) as Hweq.
  { intros a b. destruct (Hh' a) as [->| ->], (Hh' b) as [->| ->];
      by rewrite ?Heql, ?Heqr. }
  assert (∀ a, wrapper_hash (h' !!! a) = wrapper_hash (h !!! a)) as Hwh.
  { intros a. destruct (Hh' a) as [->| ->]; by rewrite ?Hhash. }
  assert (∀ a b, py_eq h' a b = py_eq h a b) as Hpy.
  { intros a b. unfold py_eq. by rewrite Hweq. }
  assert (∀ a b, key_match h' a b = key_match h a b) as Hkm.
  { intros a b. unfold key_match. by rewrite Hweq, !Hwh. }
  destruct (truthy (default [] (kw_include kw))
            && truthy (default [] (kw_exclude kw))) eqn:Hconf.
  { by rewrite !get_attrs_conflicting. }
  destruct (forallb (λ p, validate_columns p.2) (validated_params kw))
    eqn:Hvalid.
  - rewrite !get_attrs_valid by done. f_equal.
    rewrite (selected_ext h h' self self').
    + apply list_fmap_ext. intros i w _. unfold spec_override.
      by rewrite (dict_update_ext h h'), (dict_get_ext h h').
    + apply bind_raw_attrs.
    + intros r. by destruct (Hh' r) as [->| ->].
    + intros r. by destruct (Hh' r) as [->| ->].
    + done.
  - destruct (validate_params_invalid kw Hvalid) as [e He].
    by rewrite !(get_attrs_validation_error _ _ kw e).
Qed.

End selection_after_bind.

Lemma get_attrs_after_bind_witness :
  let st := FieldSet.bind Sample.objects Sample.form 8 (Some 2) in
  @FieldSet.get_attrs Sample.fields_by_column Sample.utils st.1 st.2
    (Sample.with_pk false no_kwargs)
  = @FieldSet.get_attrs Sample.fields_by_column Sample.utils Sample.objects
      Sample.form (Sample.with_pk false no_kwargs).
Proof.
  intros st.
  apply (@get_attrs_after_bind Sample.fields_by_column Sample.utils);
    reflexivity.
Defined.
